(** * CSD efficacy dashboard ([app.py]): a shallow embedding and its properties

    [app.py] is a Streamlit script.  It loads a pickled classifier (or a
    stand-in when the file is absent), reads six numbers from the sidebar,
    and offers two tabs: a single-case prediction with a gauge and a
    coloured banner, and a batch prediction over an uploaded CSV file with a
    histogram, summary statistics and a CSV download.

    The embedding follows the script top to bottom:
    - Python floats are IEEE 754 binary64 values ([spec_float] of the
      Standard Library, with [prec = 53] and [emax = 1024]);
    - Python [str] is a list of Unicode code points, [bytes] a list of bytes;
    - a [DataFrame] is an ordered list of named columns over a range index;
    - Streamlit calls are recorded as a list of emitted elements, and a Python
      exception ends the run of the script with the elements emitted so far. *)

From Stdlib Require Import ZArith NArith List Bool Lia.
From Stdlib Require Import Strings.Ascii Strings.String Strings.Byte.
From Stdlib Require Import Floats.SpecFloat Floats.PrimFloat Floats.FloatOps.
From stdpp Require Import gmap strings list.

#[local] Set Warnings "-inexact-float".
#[local] Open Scope Z_scope.

(** ** Python floats *)

Module Float.

(** A Python [float] is a binary64 value. *)
Definition pyfloat : Type := spec_float.

Definition prec : Z := 53.
Definition emax : Z := 1024.

(** The float literals of [app.py], as the binary64 values the interpreter
    reads them as (round to nearest, ties to even). *)
Definition f0_0  : pyfloat := S754_zero false.
Definition f0_2  : pyfloat := S754_finite false 7205759403792794 (-55).
Definition f0_3  : pyfloat := S754_finite false 5404319552844595 (-54).
Definition f0_45 : pyfloat := S754_finite false 8106479329266893 (-54).
Definition f0_7  : pyfloat := S754_finite false 6305039478318694 (-53).
Definition f1_0  : pyfloat := S754_finite false 4503599627370496 (-52).
Definition f100  : pyfloat := S754_finite false 7036874417766400 (-46).

(** [x < y] and [x <= y] on floats: false as soon as one side is NaN. *)
Definition ltb (x y : pyfloat) : bool := SFltb x y.
Definition leb (x y : pyfloat) : bool := SFleb x y.

(** [x * y] on floats. *)
Definition mul (x y : pyfloat) : pyfloat := SFmul prec emax x y.

(** [p] lies in the closed interval [[0, 1]]. *)
Definition in_unit (p : pyfloat) : Prop := leb f0_0 p = true /\ leb p f1_0 = true.

Definition is_nan (p : pyfloat) : bool :=
  match p with S754_nan => true | _ => false end.

(** The exact rational value of a finite float, as a numerator over a power
    of two: [(n, k)] stands for [n / 2^k]. *)
Definition dyadic (p : pyfloat) : option (Z * Z) :=
  match p with
  | S754_zero _ => Some (0, 0)
  | S754_finite s m e =>
      let n := if s then Z.neg m else Z.pos m in
      Some (if 0 <=? e then (n * 2 ^ e, 0) else (n, - e))
  | _ => None
  end.

(** The place of a float in the order that [<] follows: the class (negative
    infinity, negative, zero, positive, positive infinity), then exponent and
    mantissa.  NaN has no place; it gets the key of zero and is told apart by
    [is_nan]. *)
Definition key (x : pyfloat) : Z * Z * Z :=
  match x with
  | S754_nan => (0, 0, 0)
  | S754_infinity true => (-2, 0, 0)
  | S754_finite true m e => (-1, - e, Z.neg m)
  | S754_zero _ => (0, 0, 0)
  | S754_finite false m e => (1, e, Z.pos m)
  | S754_infinity false => (2, 0, 0)
  end.

Definition klt (k1 k2 : Z * Z * Z) : Prop :=
  let '(a1, b1, c1) := k1 in
  let '(a2, b2, c2) := k2 in
  a1 < a2 \/ (a1 = a2 /\ (b1 < b2 \/ (b1 = b2 /\ c1 < c2))).

Definition kle (k1 k2 : Z * Z * Z) : Prop :=
  let '(a1, b1, c1) := k1 in
  let '(a2, b2, c2) := k2 in
  a1 < a2 \/ (a1 = a2 /\ (b1 < b2 \/ (b1 = b2 /\ c1 <= c2))).

(** [x] is finite and its value is the integer [z]. *)
Definition represents (x : pyfloat) (z : Z) : bool :=
  match dyadic x with
  | Some (n, k) => n =? z * 2 ^ k
  | None => false
  end.

End Float.

(** ** The risk presenter: gauge colour and banner *)

Module Risk.
Import Float.

(** The three risk tiers, in increasing order of risk. *)
Inductive tier := low | medium | high.

Definition tier_rank (t : tier) : nat :=
  match t with low => 0%nat | medium => 1%nat | high => 2%nat end.

Definition tier_le (t1 t2 : tier) : Prop := (tier_rank t1 <= tier_rank t2)%nat.

(** Bar colours of the gauge. *)
Definition green  : string := "#28a745".
Definition yellow : string := "#ffc107".
Definition red    : string := "#dc3545".

(** [plot_gauge], lines 43-45: the colour of the gauge bar. *)
Definition gauge_color (prob : pyfloat) : string :=
  if ltb prob f0_3 then green
  else if ltb prob f0_7 then yellow
  else red.

(** Tab 1, lines 140-145: the branch of the banner that is taken. *)
Definition banner_tier (prob : pyfloat) : tier :=
  if ltb prob f0_3 then low
  else if ltb prob f0_7 then medium
  else high.

(** The colour the spec's table gives to each tier. *)
Definition tier_color (t : tier) : string :=
  match t with low => green | medium => yellow | high => red end.

End Risk.

(** ** Python values: text, bytes, exceptions *)

Module Py.

(** A [str] is a sequence of Unicode code points. *)
Definition codepoint : Type := N.
Definition pystr : Type := list codepoint.

(** An ASCII literal of the source as a [str]. *)
Definition lit (s : string) : pystr :=
  map Ascii.N_of_ascii (String.list_ascii_of_string s).

(** [sep.join(parts)]. *)
Fixpoint join (sep : pystr) (parts : list pystr) : pystr :=
  match parts with
  | [] => []
  | [x] => x
  | x :: rest => x ++ sep ++ join sep rest
  end.

(** The exceptions the script can meet. *)
Inductive exn :=
| FileNotFoundError
| IndexError
| KeyError (missing : list pystr)
| ValueError
| UnicodeEncodeError (c : codepoint)
| StreamlitAPIException
| OtherError (tag : string).

(** The result of running a piece of Python: a value, or a raised exception. *)
Inductive outcome (A : Type) :=
| Ok (a : A)
| Raise (e : exn).
Arguments Ok {A} a.
Arguments Raise {A} e.

Definition obind {A B} (m : outcome A) (f : A -> outcome B) : outcome B :=
  match m with Ok a => f a | Raise e => Raise e end.

(** All results of [f] over a list, or the first exception. *)
Fixpoint omap {A B} (f : A -> outcome B) (l : list A) : outcome (list B) :=
  match l with
  | [] => Ok []
  | x :: rest =>
      obind (f x) (fun y => obind (omap f rest) (fun ys => Ok (y :: ys)))
  end.

(** *** [str.encode('utf-8-sig')] *)

Definition byte_of_N (n : N) : Byte.byte := Ascii.byte_of_ascii (Ascii.ascii_of_N n).

(** Surrogate code points have no UTF-8 encoding. *)
Definition is_surrogate (c : codepoint) : bool :=
  ((0xD800 <=? c) && (c <=? 0xDFFF))%N.

(** The UTF-8 bytes of one code point. *)
Definition utf8_encode_cp (c : codepoint) : outcome (list Byte.byte) :=
  if (c <? 0x80)%N then Ok [byte_of_N c]
  else if (c <? 0x800)%N then
    Ok [byte_of_N (N.lor 0xC0 (N.shiftr c 6));
        byte_of_N (N.lor 0x80 (N.land c 0x3F))]
  else if (c <? 0x10000)%N then
    if is_surrogate c then Raise (UnicodeEncodeError c)
    else
      Ok [byte_of_N (N.lor 0xE0 (N.shiftr c 12));
          byte_of_N (N.lor 0x80 (N.land (N.shiftr c 6) 0x3F));
          byte_of_N (N.lor 0x80 (N.land c 0x3F))]
  else if (c <? 0x110000)%N then
    Ok [byte_of_N (N.lor 0xF0 (N.shiftr c 18));
        byte_of_N (N.lor 0x80 (N.land (N.shiftr c 12) 0x3F));
        byte_of_N (N.lor 0x80 (N.land (N.shiftr c 6) 0x3F));
        byte_of_N (N.lor 0x80 (N.land c 0x3F))]
  else Raise (UnicodeEncodeError c).

(** The code points that UTF-8 encodes: the Unicode scalar values. *)
Definition is_scalar (c : codepoint) : bool :=
  (c <? 0x110000)%N && negb (is_surrogate c).

(** [s.encode('utf-8')]. *)
Definition encode_utf8 (s : pystr) : outcome (list Byte.byte) :=
  obind (omap utf8_encode_cp s) (fun chunks => Ok (concat chunks)).

(** The byte-order mark that [utf-8-sig] writes first. *)
Definition BOM : list Byte.byte := [byte_of_N 0xEF; byte_of_N 0xBB; byte_of_N 0xBF].

(** [s.encode('utf-8-sig')]. *)
Definition encode_utf8_sig (s : pystr) : outcome (list Byte.byte) :=
  obind (encode_utf8 s) (fun b => Ok (BOM ++ b)).

End Py.

(** ** NumPy arrays, as far as the script indexes them *)

Module Np.
Import Float Py.

(** A two-dimensional float array of shape [(length rows, shape1)]; every
    row of a well-formed array has [shape1] entries. *)
Record ndarray := { shape1 : nat; rows : list (list pyfloat) }.

(** [a[0, 1]]: the entry in row 0, column 1. *)
Definition getitem_0_1 (a : ndarray) : outcome pyfloat :=
  match rows a with
  | [] => Raise IndexError
  | r :: _ =>
      match r !! 1%nat with
      | Some x => Ok x
      | None => Raise IndexError
      end
  end.

(** [a[:, 1]]: column 1, one entry per row. *)
Definition getitem_all_1 (a : ndarray) : outcome (list pyfloat) :=
  if (shape1 a <=? 1)%nat then Raise IndexError
  else omap (fun r => match r !! 1%nat with
                      | Some x => Ok x
                      | None => Raise IndexError
                      end) (rows a).

End Np.

(** ** pandas data frames, as far as the script uses them *)

Module Pd.
Import Float Py.

(** A value held in a data frame. *)
Inductive cell :=
| CFloat (f : pyfloat)        (* float64 *)
| CFloat32 (f : spec_float)   (* float32 *)
| CInt (z : Z)                (* int64 *)
| CBool (b : bool)
| CStr (s : pystr).           (* object *)

(** The missing value, [np.nan]. *)
Definition NaN : cell := CFloat S754_nan.

(** A frame over the range index [0 .. nrows-1]: named columns in order,
    each holding one cell per row.  (An upload whose records have one field
    more than its header parses to a frame with row labels of its own; such
    frames are outside this type.) *)
Record DataFrame := { nrows : nat; cols : list (pystr * list cell) }.

(** [df.columns]. *)
Definition columns (df : DataFrame) : list pystr := map fst (cols df).

(** [len(df)]. *)
Definition len (df : DataFrame) : nat := nrows df.

(** Column labels are unique (as [read_csv] makes them) and every column
    has one cell per row. *)
Definition wf_frame (df : DataFrame) : Prop :=
  NoDup (columns df) /\ Forall (fun c => length (snd c) = nrows df) (cols df).

(** The cells of the column labelled [name]. *)
Definition lookup_col (df : DataFrame) (name : pystr) : option (list cell) :=
  snd <$> find (fun c => bool_decide (fst c = name)) (cols df).

(** Row [i] of the frame, in column order. *)
Definition row (df : DataFrame) (i : nat) : list cell :=
  map (fun c => nth i (snd c) NaN) (cols df).

(** [df[names]] for a list of labels: the named columns in the order of
    [names]; [KeyError] with the absent labels when some are absent. *)
Definition getitem_list (df : DataFrame) (names : list pystr) : outcome DataFrame :=
  match filter (fun n => lookup_col df n = None) names with
  | [] =>
      Ok {| nrows := nrows df;
            cols := flat_map (fun n => match lookup_col df n with
                                       | Some c => [(n, c)]
                                       | None => []
                                       end) names |}
  | missing => Raise (KeyError missing)
  end.

(** [df[name]] for one label: the column's cells. *)
Definition getitem (df : DataFrame) (name : pystr) : outcome (list cell) :=
  match lookup_col df name with
  | Some c => Ok c
  | None => Raise (KeyError [name])
  end.

(** The column list after [df[key] = vals]: an existing column [key] is
    replaced where it stands, a new one is appended at the end. *)
Definition set_column (key : pystr) (vals : list cell)
    (cs : list (pystr * list cell)) : list (pystr * list cell) :=
  if bool_decide (key ∈ map fst cs)
  then map (fun c => if bool_decide (fst c = key) then (key, vals) else c) cs
  else cs ++ [(key, vals)].

(** [df[key] = values] for a one-dimensional float array.  A frame without
    rows takes its index from a non-empty [values], its other columns then
    hold the missing value; otherwise the lengths must agree. *)
Definition setitem (df : DataFrame) (key : pystr) (values : list pyfloat)
    : outcome DataFrame :=
  let vals := map CFloat values in
  let n := length values in
  if (nrows df =? 0)%nat && negb (n =? 0)%nat then
    Ok {| nrows := n;
          cols := set_column key vals
                    (map (fun c => (fst c, repeat NaN n)) (cols df)) |}
  else if (n =? nrows df)%nat then
    Ok {| nrows := nrows df; cols := set_column key vals (cols df) |}
  else Raise ValueError.

(** [df.to_csv(index=False)]. The text of a value and the text of a record
    (quoting, delimiter, line end) are those of pandas' formatter and of the
    [csv] writer, taken as given. *)
Section ToCsv.
Variable cell_text : cell -> pystr.
Variable writerow : list pystr -> pystr.

Definition to_csv (df : DataFrame) : pystr :=
  writerow (columns df)
  ++ concat (map (fun i => writerow (map cell_text (row df i)))
                 (seq 0 (nrows df))).

End ToCsv.

End Pd.

(** ** Streamlit: what a run of the script puts on the page *)

Module St.
Import Float Py Pd.

(** The texts of the script's alerts, with the values they interpolate. *)
Inductive message :=
| msg_model_missing                      (* line 32 *)
| msg_low_risk (prob : pyfloat)          (* line 141 *)
| msg_medium_risk (prob : pyfloat)       (* line 143 *)
| msg_high_risk (prob : pyfloat)         (* line 145 *)
| msg_missing_columns (names : pystr)    (* line 160: the joined labels *)
| msg_processed (n : nat).               (* line 166 *)

(** The indicator that [plot_gauge] builds. *)
Record gauge := {
  g_value : pyfloat;
  g_bar_color : string;
  g_steps : list (Z * Z * string);
  g_threshold : pyfloat
}.

Inductive figure :=
| Gauge (g : gauge)
| Histogram (data : DataFrame) (x : pystr) (nbins : Z).

(** The elements a run emits.  [static n] is a call at line [n] of the
    script that shows a fixed text, image or divider. *)
Inductive element :=
| static (line : nat)
| error (m : message)
| success (m : message)
| warning (m : message)
| plotly_chart (fig : figure)
| dataframe_transposed (df : DataFrame)
| dataframe_gradient (df : DataFrame) (subset : list pystr)
| write_describe (col : list cell)
| download_button (data : list Byte.byte) (file_name mime : string).

(** A run: the elements emitted so far, and a value or the exception that
    stopped the script. *)
Definition ui (A : Type) : Type := list element * outcome A.

Definition ret {A} (a : A) : ui A := ([], Ok a).

Definition bind {A B} (m : ui A) (f : A -> ui B) : ui B :=
  match m with
  | (ev, Ok a) => let '(ev', r) := f a in (ev ++ ev', r)
  | (ev, Raise e) => (ev, Raise e)
  end.

Definition emit (e : element) : ui unit := ([e], Ok tt).

Definition lift {A} (m : outcome A) : ui A := ([], m).

Definition events {A} (m : ui A) : list element := fst m.
Definition result {A} (m : ui A) : outcome A := snd m.

Definition is_download (e : element) : bool :=
  match e with download_button _ _ _ => true | _ => false end.

(** The number of cells up to which a styled frame is rendered
    ([styler.render.max_elements]). *)
Definition styler_max_elements : Z := 262144.

(** [df.size], the number of cells of a frame. *)
Definition size (df : DataFrame) : Z :=
  Z.of_nat (nrows df) * Z.of_nat (List.length (cols df)).

(** [df.size] is beyond that number. *)
Definition too_many_cells (df : DataFrame) : bool :=
  styler_max_elements <? size df.

(** [st.dataframe(df.style.background_gradient(subset=subset, ...))]: the
    styled frame is shown unless it has too many cells to be rendered. *)
Definition dataframe_styled (df : DataFrame) (subset : list pystr) : ui unit :=
  if too_many_cells df then lift (Raise StreamlitAPIException)
  else emit (dataframe_gradient df subset).

End St.

#[global] Instance ui_ret : MRet St.ui := @St.ret.
#[global] Instance ui_bind : MBind St.ui := fun A B f m => St.bind m f.

(** ** The script *)

Module App.
Import Float Py Np Pd St Risk.

(** A classifier, as far as the script uses it: [predict_proba]. *)
Record Classifier := { predict_proba : DataFrame -> outcome ndarray }.

(** Lines 34-35: the stand-in. *)
Definition DummyModel : Classifier :=
  {| predict_proba := fun _ => Ok {| shape1 := 2; rows := [[f0_2; f0_45]] |} |}.

(** Lines 28-36: the body of [load_model], given what
    [joblib.load("lgb_best.pkl")] does. *)
Definition load_model (joblib_load : outcome Classifier) : ui Classifier :=
  match joblib_load with
  | Ok m => ret m
  | Raise FileNotFoundError =>
      emit (error msg_model_missing);;
      ret DummyModel
  | Raise e => lift (Raise e)
  end.

(** Lines 40-85: [plot_gauge]. *)
Definition plot_gauge (prob : pyfloat) : gauge :=
  let color := gauge_color prob in
  {| g_value := mul prob f100;
     g_bar_color := color;
     g_steps := [(0, 30, "rgba(40, 167, 69, 0.1)"%string);
                 (30, 70, "rgba(255, 193, 7, 0.1)"%string);
                 (70, 100, "rgba(220, 53, 69, 0.1)"%string)];
     g_threshold := mul prob f100 |}.

(** The values of the six number inputs of the sidebar; the two inputs
    with integer bounds and step give integers. *)
Record sidebar := {
  length : pyfloat;
  rmt : pyfloat;
  pre_hb : Z;
  pre_alb : Z;
  post_wbc : pyfloat;
  bmi : pyfloat
}.

(** [astype("float32")] on a float and on an integer. *)
Definition f32_of_float (x : pyfloat) : spec_float :=
  match x with
  | S754_finite s m e => binary_round 24 128 s m e
  | _ => x
  end.

Definition f32_of_int (z : Z) : spec_float := binary_normalize 24 128 z 0 false.

(** The six required column labels, in the order of line 111. *)
Definition feature_names : list pystr :=
  [lit "Length"; lit "RMT"; lit "Pre_Hb"; lit "Pre_Alb"; lit "Post_WBC"; lit "BMI"].

(** Lines 109-111: the one-row frame of the sidebar's values. *)
Definition input_df (sb : sidebar) : DataFrame :=
  {| nrows := 1;
     cols := [(lit "Length",   [CFloat32 (f32_of_float (length sb))]);
              (lit "RMT",      [CFloat32 (f32_of_float (rmt sb))]);
              (lit "Pre_Hb",   [CFloat32 (f32_of_int (pre_hb sb))]);
              (lit "Pre_Alb",  [CFloat32 (f32_of_int (pre_alb sb))]);
              (lit "Post_WBC", [CFloat32 (f32_of_float (post_wbc sb))]);
              (lit "BMI",      [CFloat32 (f32_of_float (bmi sb))])] |}.

(** Lines 88-106: the fixed elements of the sidebar. *)
Definition sidebar_elements : ui unit :=
  emit (static 89);; emit (static 90);; emit (static 91);;
  emit (static 93);; emit (static 97);; emit (static 99).

(** Lines 140-145: the banner. *)
Definition banner (prob : pyfloat) : ui unit :=
  if ltb prob f0_3 then emit (success (msg_low_risk prob))
  else if ltb prob f0_7 then emit (warning (msg_medium_risk prob))
  else emit (error (msg_high_risk prob)).

(** The alert that shows tier [t] for probability [prob]. *)
Definition tier_alert (t : tier) (prob : pyfloat) : element :=
  match t with
  | low => success (msg_low_risk prob)
  | medium => warning (msg_medium_risk prob)
  | high => error (msg_high_risk prob)
  end.

(** Line 132: the single-case prediction. *)
Definition predict_single (model : Classifier) (df : DataFrame) : outcome pyfloat :=
  obind (predict_proba model df) getitem_0_1.

(** Lines 121-145: tab 1. *)
Definition tab1 (model : Classifier) (df : DataFrame) (predict_btn : bool) : ui unit :=
  emit (static 125);;
  emit (dataframe_transposed df);;
  if predict_btn then
    prob ← lift (predict_single model df);
    emit (plotly_chart (Gauge (plot_gauge prob)));;
    emit (static 139);;
    banner prob
  else ret tt.

Definition Pred_Prob : pystr := lit "Pred_Prob".

(** Line 163, right-hand side: the batch probabilities. *)
Definition predict_batch (model : Classifier) (names : list pystr) (batch : DataFrame)
    : outcome (list pyfloat) :=
  obind (getitem_list batch names) (fun sel =>
  obind (predict_proba model sel) getitem_all_1).

(** Line 163: the batch after the assignment to its [Pred_Prob] column. *)
Definition augment (model : Classifier) (names : list pystr) (batch : DataFrame)
    : outcome DataFrame :=
  obind (predict_batch model names batch) (setitem batch Pred_Prob).

(** What the spec asks of a classifier's answer for [n] rows: [n] rows of
    two probabilities. *)
Definition probability_matrix (n : nat) (a : ndarray) : Prop :=
  shape1 a = 2%nat /\ List.length (rows a) = n /\
  Forall (fun r => List.length r = 2%nat /\ Forall in_unit r) (rows a).

(** A classifier that keeps to it on every frame of the six features. *)
Definition meets_contract (model : Classifier) : Prop :=
  forall X, columns X = feature_names ->
    exists a, predict_proba model X = Ok a /\ probability_matrix (nrows X) a.

Section Tab2.

(** What the libraries and the interpreter decide: how an uploaded file
    parses, the order in which a set of labels is iterated, and how a frame
    is written as CSV text. *)
Variable read_csv : list Byte.byte -> outcome DataFrame.
Variable set_iter : gset pystr -> list pystr.
Variable cell_text : cell -> pystr.
Variable writerow : list pystr -> pystr.

(** Lines 156-157: the required labels that the upload lacks. *)
Definition missing_columns (required : list pystr) (batch : DataFrame) : gset pystr :=
  list_to_set required ∖ list_to_set (columns batch).

(** Lines 162-192: the branch taken when no label is missing. *)
Definition batch_report (model : Classifier) (names : list pystr) (batch : DataFrame)
    : ui DataFrame :=
  batch ← lift (augment model names batch);
  emit (success (msg_processed (len batch)));;
  emit (plotly_chart (Histogram batch Pred_Prob 20));;
  emit (static 179);;
  col ← lift (getitem batch Pred_Prob);
  emit (write_describe col);;
  csv ← lift (encode_utf8_sig (to_csv cell_text writerow batch));
  emit (download_button csv "CSD_Prediction_Results.csv" "text/csv");;
  dataframe_styled batch [Pred_Prob];;
  ret batch.

(** The elements of a batch report up to the statistics. *)
Definition shown_first (out : DataFrame) (probs : list pyfloat) : list element :=
  [success (msg_processed (nrows out));
   plotly_chart (Histogram out Pred_Prob 20);
   static 179;
   write_describe (map CFloat probs)].

(** Lines 155-192: what happens to a parsed upload.  The result is the
    augmented table when one is made. *)
Definition run_batch (model : Classifier) (names : list pystr) (batch : DataFrame)
    : ui (option DataFrame) :=
  let miss := missing_columns names batch in
  if bool_decide (miss ≠ ∅) then
    emit (error (msg_missing_columns (join (lit ", ") (set_iter miss))));;
    ret None
  else
    out ← batch_report model names batch;
    ret (Some out).

(** Lines 148-192: tab 2. *)
Definition tab2 (model : Classifier) (df : DataFrame) (uploaded : option (list Byte.byte))
    : ui (option DataFrame) :=
  emit (static 149);;
  emit (static 150);;
  match uploaded with
  | None => ret None
  | Some file =>
      batch ← lift (read_csv file);
      run_batch model (columns df) batch
  end.

(** What the user did before this run of the script. *)
Record inputs := {
  values : sidebar;
  predict_btn : bool;
  uploaded : option (list Byte.byte)
}.

(** Lines 87-197, with the classifier already loaded. *)
Definition page (model : Classifier) (i : inputs) : ui (option DataFrame) :=
  sidebar_elements;;
  let df := input_df (values i) in
  emit (static 114);;
  emit (static 115);;
  tab1 model df (predict_btn i);;
  out ← tab2 model df (uploaded i);
  emit (static 195);;
  emit (static 197);;
  ret out.

(** The whole script, on a run that loads the classifier. *)
Definition script (joblib_load : outcome Classifier) (i : inputs) : ui (option DataFrame) :=
  emit (static 18);;
  model ← load_model joblib_load;
  page model i.

End Tab2.

(** Lines 94-106: the values the six number inputs start with. *)
Definition default_sidebar : sidebar :=
  {| length := S754_finite false 7205759403792794 (-53);
     rmt := f0_3;
     pre_hb := 115;
     pre_alb := 40;
     post_wbc := S754_finite false 6192449487634432 (-50);
     bmi := S754_finite false 6473924464345088 (-48) |}.

End App.

(** ** Sample inputs *)

Module Sample.
Import Float Py Np Pd St Risk App.

(** A classifier that answers every row with the same two probabilities. *)
Definition constant_classifier : Classifier :=
  {| predict_proba := fun X =>
       Ok {| shape1 := 2; rows := repeat [f0_2; f0_45] (nrows X) |} |}.

(** A classifier that answers every row with the positive class only. *)
Definition one_column_classifier : Classifier :=
  {| predict_proba := fun X =>
       Ok {| shape1 := 1; rows := repeat [f0_45] (nrows X) |} |}.

(** A classifier that fails on every frame. *)
Definition failing_classifier : Classifier :=
  {| predict_proba := fun _ => Raise (OtherError "LightGBMError") |}.

(** An upload of the six features without any row. *)
Definition table_no_rows : DataFrame :=
  {| nrows := 0;
     cols := map (fun n => (n, [])) feature_names |}.

(** An upload of two rows with an [id] column and all features but [BMI]. *)
Definition table_without_BMI : DataFrame :=
  {| nrows := 2;
     cols := [(lit "id", [CInt 1; CInt 2]);
              (lit "Length", [CFloat f0_2; CFloat f0_7]);
              (lit "RMT", [CFloat f0_3; CFloat f0_3]);
              (lit "Pre_Hb", [CInt 115; CInt 98]);
              (lit "Pre_Alb", [CInt 40; CInt 35]);
              (lit "Post_WBC", [CFloat f1_0; CFloat f1_0])] |}.

(** The six feature columns of a two-row upload. *)
Definition feature_cols : list (pystr * list cell) :=
  [(lit "Length", [CFloat f0_2; CFloat f0_7]);
   (lit "RMT", [CFloat f0_3; CFloat f0_3]);
   (lit "Pre_Hb", [CInt 115; CInt 98]);
   (lit "Pre_Alb", [CInt 40; CInt 35]);
   (lit "Post_WBC", [CFloat f1_0; CFloat f1_0]);
   (lit "BMI", [CFloat f100; CFloat f100])].

Definition table_two_rows : DataFrame := {| nrows := 2; cols := feature_cols |}.

(** An upload of one row of the six features. *)
Definition table_one_row : DataFrame :=
  {| nrows := 1;
     cols := [(lit "Length", [CFloat f0_7]);
              (lit "RMT", [CFloat f0_3]);
              (lit "Pre_Hb", [CInt 115]);
              (lit "Pre_Alb", [CInt 40]);
              (lit "Post_WBC", [CFloat f1_0]);
              (lit "BMI", [CFloat f100])] |}.

(** The same upload with its columns reversed and a [name] column in front. *)
Definition table_reordered : DataFrame :=
  {| nrows := 2;
     cols := (lit "name", [CStr (lit "a"); CStr (lit "b")]) :: rev feature_cols |}.

(** An upload that already has a [Pred_Prob] column, between the features. *)
Definition table_with_Pred_Prob : DataFrame :=
  {| nrows := 2;
     cols := [(lit "Length", [CFloat f0_2; CFloat f0_7]);
              (lit "RMT", [CFloat f0_3; CFloat f0_3]);
              (lit "Pred_Prob", [CStr (lit "n/a"); CStr (lit "n/a")]);
              (lit "Pre_Hb", [CInt 115; CInt 98]);
              (lit "Pre_Alb", [CInt 40; CInt 35]);
              (lit "Post_WBC", [CFloat f1_0; CFloat f1_0]);
              (lit "BMI", [CFloat f100; CFloat f100])] |}.

(** That upload after the assignment of two probabilities of 0.45. *)
Definition table_overwritten : DataFrame :=
  {| nrows := 2;
     cols := [(lit "Length", [CFloat f0_2; CFloat f0_7]);
              (lit "RMT", [CFloat f0_3; CFloat f0_3]);
              (lit "Pred_Prob", [CFloat f0_45; CFloat f0_45]);
              (lit "Pre_Hb", [CInt 115; CInt 98]);
              (lit "Pre_Alb", [CInt 40; CInt 35]);
              (lit "Post_WBC", [CFloat f1_0; CFloat f1_0]);
              (lit "BMI", [CFloat f100; CFloat f100])] |}.

(** A CSV record as the [csv] writer gives it for fields that need no quoting. *)
Definition plain_writerow (fields : list pystr) : pystr :=
  join (lit ",") fields ++ [10%N].

(** A stand-in for the text of a value. *)
Definition plain_cell_text (c : cell) : pystr :=
  match c with CStr s => s | _ => lit "0" end.

End Sample.

(** * Properties *)

Import Float Py Np Pd St Risk App.

(** ** Float comparison *)

(** A comparison against its reading on keys: settle the goal once both
    floats are split into their classes and, for two finite floats of one
    sign, the exponents and then the mantissas are compared. *)
Ltac settle_comparison :=
  first [ split; [discriminate | intros (? & ? & ?); first [discriminate | lia]]
        | split; [intros _; repeat split; lia | reflexivity] ].

Ltac compare_cases x y :=
  let sx := fresh "sx" in let mx := fresh "mx" in let ex := fresh "ex" in
  let sy := fresh "sy" in let my := fresh "my" in let ey := fresh "ey" in
  destruct x as [sx|sx| |sx mx ex], y as [sy|sy| |sy my ey];
    try destruct sx; try destruct sy; cbn;
    try settle_comparison;
    destruct (Z.compare_spec ex ey); cbn; try settle_comparison;
    change (Pos.compare_cont Eq mx my) with (Pos.compare mx my);
    destruct (Pos.compare_spec mx my); cbn; settle_comparison.

(** [x < y] holds exactly when neither side is NaN and the key of [x] comes
    strictly before the key of [y]. *)
Lemma ltb_spec (x y : pyfloat) :
  ltb x y = true <-> is_nan x = false /\ is_nan y = false /\ klt (key x) (key y).
Proof.
  unfold ltb, SFltb.
  compare_cases x y.
Qed.

(** [x <= y] holds exactly when neither side is NaN and the key of [x] does
    not come after the key of [y]. *)
Lemma leb_spec (x y : pyfloat) :
  leb x y = true <-> is_nan x = false /\ is_nan y = false /\ kle (key x) (key y).
Proof.
  unfold leb, SFleb.
  compare_cases x y.
Qed.

(** [<] is transitive. *)
Lemma ltb_trans (x y z : pyfloat) :
  ltb x y = true -> ltb y z = true -> ltb x z = true.
Proof.
  rewrite !ltb_spec. unfold klt.
  destruct (key x) as [[a1 b1] c1], (key y) as [[a2 b2] c2], (key z) as [[a3 b3] c3].
  intros (? & ? & ?) (? & ? & ?). repeat split; trivial. lia.
Qed.

(** [y <= x] excludes [x < y]. *)
Lemma leb_not_ltb (x y : pyfloat) : leb y x = true -> ltb x y = false.
Proof.
  intros H. destruct (ltb x y) eqn:E; [|reflexivity]. exfalso.
  apply leb_spec in H. apply ltb_spec in E. unfold klt, kle in *.
  destruct (key x) as [[a1 b1] c1], (key y) as [[a2 b2] c2].
  destruct H as (_ & _ & ?), E as (_ & _ & ?). lia.
Qed.

(** ** The risk tiers *)

(** The banner shows the alert of the tier whose branch is taken. *)
Lemma banner_emits (p : pyfloat) : banner p = emit (tier_alert (banner_tier p) p).
Proof.
  unfold banner, banner_tier.
  destruct (ltb p f0_3); [reflexivity|]. destruct (ltb p f0_7); reflexivity.
Qed.

(** The alerts of two different tiers differ. *)
Lemma tier_alert_inj (t1 t2 : tier) (p : pyfloat) :
  tier_alert t1 p = tier_alert t2 p -> t1 = t2.
Proof. destruct t1, t2; cbn; congruence. Qed.

(** Below the first cutoff the tier is low. *)
Lemma tier_low_iff (p : pyfloat) : banner_tier p = low <-> ltb p f0_3 = true.
Proof.
  unfold banner_tier. destruct (ltb p f0_3); [tauto|].
  destruct (ltb p f0_7); split; discriminate.
Qed.

(** From the second cutoff on, and for NaN, the tier is high. *)
Lemma tier_high_iff (p : pyfloat) : banner_tier p = high <-> ltb p f0_7 = false.
Proof.
  unfold banner_tier. destruct (ltb p f0_3) eqn:E3.
  - assert (ltb p f0_7 = true) as ->
      by (apply (ltb_trans p f0_3 f0_7); [exact E3 | reflexivity]).
    split; discriminate.
  - destruct (ltb p f0_7); split; congruence.
Qed.

(** C1: the banner's tiers partition [0,1] at the cutoffs 0.30 and 0.70,
    lower edge included and upper edge excluded, the last tier including
    1.0: 0.0 is low, 0.30 is medium, 0.70 and 1.0 are high; every p in
    [0,0.30) is low, every p in [0.30,0.70) is medium and every p in
    [0.70,1.0] is high. *)
Theorem C1_tier_partition (p : pyfloat) :
  (banner_tier f0_0 = low /\ banner_tier f0_3 = medium /\
   banner_tier f0_7 = high /\ banner_tier f1_0 = high) /\
  (leb f0_0 p = true -> ltb p f0_3 = true -> banner_tier p = low) /\
  (leb f0_3 p = true -> ltb p f0_7 = true -> banner_tier p = medium) /\
  (leb f0_7 p = true -> leb p f1_0 = true -> banner_tier p = high).
Proof.
  split; [repeat split|]. split; [|split].
  - intros _ H. apply tier_low_iff, H.
  - intros H3 H7. unfold banner_tier.
    rewrite (leb_not_ltb p f0_3 H3), H7. reflexivity.
  - intros H7 _. apply tier_high_iff, leb_not_ltb, H7.
Qed.

(** C1 at 0.2, 0.45 and 0.7. *)
Lemma C1_tier_partition_witness :
  banner_tier f0_2 = low /\ banner_tier f0_45 = medium /\ banner_tier f0_7 = high.
Proof.
  split; [|split].
  - apply (proj1 (proj2 (C1_tier_partition f0_2))); reflexivity.
  - apply (proj1 (proj2 (proj2 (C1_tier_partition f0_45)))); reflexivity.
  - apply (proj2 (proj2 (proj2 (C1_tier_partition f0_7)))); reflexivity.
Defined.

(** C5: for probabilities p1 < p2 in [0,1] the tier of p1 is at most the
    tier of p2 in the order low < medium < high, and for every p the banner
    shows the alert of exactly one tier. *)
Theorem C5_tier_monotone (p1 p2 : pyfloat)
    (H1 : in_unit p1) (H2 : in_unit p2) (Hlt : ltb p1 p2 = true) :
  tier_le (banner_tier p1) (banner_tier p2) /\
  forall p, exists! t, events (banner p) = [tier_alert t p].
Proof.
  split.
  - unfold tier_le.
    destruct (banner_tier p2) eqn:E2.
    + apply tier_low_iff in E2.
      assert (banner_tier p1 = low) as ->
        by (apply tier_low_iff, (ltb_trans p1 p2 f0_3); assumption).
      cbn. lia.
    + destruct (banner_tier p1) eqn:E1; cbn; try lia. exfalso.
      apply tier_high_iff in E1.
      assert (ltb p2 f0_7 = true).
      { unfold banner_tier in E2. destruct (ltb p2 f0_3); [discriminate|].
        destruct (ltb p2 f0_7); [reflexivity | discriminate]. }
      rewrite (ltb_trans p1 p2 f0_7) in E1; [discriminate | assumption..].
    + destruct (banner_tier p1); cbn; lia.
  - intros p. exists (banner_tier p). split.
    + rewrite banner_emits. reflexivity.
    + intros t. rewrite banner_emits. cbn. intros H.
      injection H as H. eapply tier_alert_inj, H.
Qed.

(** C5 at 0.2 < 0.7. *)
Lemma C5_tier_monotone_witness :
  tier_le (banner_tier f0_2) (banner_tier f0_7) /\
  forall p, exists! t, events (banner p) = [tier_alert t p].
Proof.
  apply (C5_tier_monotone f0_2 f0_7); [split; reflexivity .. | reflexivity].
Defined.

(** C6: for every probability in [0,1] the colour of the gauge bar is the
    colour of the tier that the banner shows: green with low, yellow with
    medium, red with high. *)
Theorem C6_gauge_agrees_with_banner (p : pyfloat) (Hp : in_unit p) :
  exists t,
    events (banner p) = [tier_alert t p] /\
    g_bar_color (plot_gauge p) = tier_color t.
Proof.
  exists (banner_tier p). split.
  - rewrite banner_emits. reflexivity.
  - cbn. unfold gauge_color, banner_tier.
    destruct (ltb p f0_3); [reflexivity|]. destruct (ltb p f0_7); reflexivity.
Qed.

(** C6 at 0.45. *)
Lemma C6_gauge_agrees_with_banner_witness :
  exists t,
    events (banner f0_45) = [tier_alert t f0_45] /\
    g_bar_color (plot_gauge f0_45) = tier_color t.
Proof. apply (C6_gauge_agrees_with_banner f0_45). split; reflexivity. Defined.

(** ** Batch validation *)

(** A decidable fact about concrete data, settled by evaluation. *)
Ltac by_evaluation := apply (bool_decide_unpack _); vm_compute; exact I.

(** Each of the six required labels is a label of a concrete frame. *)
Ltac features_present :=
  let n := fresh "n" in let Hn := fresh "Hn" in
  intros n Hn;
  repeat (apply elem_of_cons in Hn as [->|Hn]; [by_evaluation|]);
  inversion Hn.

(** The labels of the sidebar's frame are the six required ones. *)
Lemma input_df_columns (sb : sidebar) : columns (input_df sb) = feature_names.
Proof. reflexivity. Qed.

(** A label is missing when it is required and the upload has no such column. *)
Lemma elem_of_missing_columns (n : pystr) (required : list pystr) (batch : DataFrame) :
  n ∈ missing_columns required batch <-> n ∈ required /\ n ∉ columns batch.
Proof. unfold missing_columns. set_solver. Qed.

Section Validation.

Variable read_csv : list Byte.byte -> outcome DataFrame.
Variable set_iter : gset pystr -> list pystr.
Variable cell_text : cell -> pystr.
Variable writerow : list pystr -> pystr.

(** Iterating over a set visits each of its members once, in some order. *)
Hypothesis set_iter_perm : forall s, set_iter s ≡ₚ elements s.

(** With a required label absent, the batch ends in one error alert that
    names the absent labels. *)
Lemma run_batch_missing (model : Classifier) (required : list pystr) (batch : DataFrame) :
  (exists n, n ∈ required /\ n ∉ columns batch) ->
  exists absent : list pystr,
    NoDup absent /\
    (forall n, n ∈ absent <-> n ∈ required /\ n ∉ columns batch) /\
    run_batch set_iter cell_text writerow model required batch
      = ([error (msg_missing_columns (join (lit ", ") absent))], Ok None).
Proof.
  intros (n & Hn & Hn').
  exists (set_iter (missing_columns required batch)). split; [|split].
  - rewrite set_iter_perm. apply NoDup_elements.
  - intros k. rewrite set_iter_perm, elem_of_elements.
    apply elem_of_missing_columns.
  - unfold run_batch. rewrite bool_decide_eq_true_2; [reflexivity|].
    intros E. assert (n ∈ missing_columns required batch) as Hin
      by (apply elem_of_missing_columns; auto).
    rewrite E in Hin. set_solver.
Qed.

(** C2: when the uploaded table lacks one or more of the six required
    columns, tab 2 shows one error alert whose text lists exactly the absent
    labels, makes no augmented table, and offers no download. *)
Theorem C2_missing_columns_rejected
    (model : Classifier) (sb : sidebar) (file : list Byte.byte) (batch : DataFrame)
    (Hread : read_csv file = Ok batch)
    (Hmiss : exists n, n ∈ feature_names /\ n ∉ columns batch) :
  exists absent : list pystr,
    NoDup absent /\
    (forall n, n ∈ absent <-> n ∈ feature_names /\ n ∉ columns batch) /\
    tab2 read_csv set_iter cell_text writerow model (input_df sb) (Some file)
      = ([static 149; static 150;
          error (msg_missing_columns (join (lit ", ") absent))], Ok None) /\
    Forall (fun e => is_download e = false)
      (events (tab2 read_csv set_iter cell_text writerow model (input_df sb) (Some file))).
Proof.
  destruct (run_batch_missing model feature_names batch Hmiss)
    as (absent & Hnd & Hin & Hrun).
  exists absent. split; [exact Hnd|]. split; [exact Hin|].
  assert (tab2 read_csv set_iter cell_text writerow model (input_df sb) (Some file)
      = ([static 149; static 150;
          error (msg_missing_columns (join (lit ", ") absent))], Ok None)) as E.
  { unfold tab2. rewrite Hread, input_df_columns. cbn.
    unfold mbind, ui_bind, St.bind. cbn. rewrite Hrun. reflexivity. }
  split; [exact E|]. rewrite E. cbn. repeat constructor.
Qed.

End Validation.

(** C2 on an upload that lacks only [BMI]. *)
Lemma C2_missing_columns_rejected_witness :
  let read := fun _ : list Byte.byte => Ok Sample.table_without_BMI in
  exists absent : list pystr,
    NoDup absent /\
    (forall n, n ∈ absent <-> n ∈ feature_names /\ n ∉ columns Sample.table_without_BMI) /\
    tab2 read elements Sample.plain_cell_text Sample.plain_writerow
         DummyModel (input_df default_sidebar) (Some [])
      = ([static 149; static 150;
          error (msg_missing_columns (join (lit ", ") absent))], Ok None) /\
    Forall (fun e => is_download e = false)
      (events (tab2 read elements Sample.plain_cell_text Sample.plain_writerow
                    DummyModel (input_df default_sidebar) (Some []))).
Proof.
  intros read.
  apply (C2_missing_columns_rejected read elements Sample.plain_cell_text
           Sample.plain_writerow (fun s => reflexivity _) DummyModel default_sidebar
           [] Sample.table_without_BMI).
  - reflexivity.
  - exists (lit "BMI"). split.
    + repeat constructor.
    + by_evaluation.
Defined.

(** ** Column lookup and selection *)

(** A label has a column exactly when it is among the frame's labels. *)
Lemma lookup_col_None (df : DataFrame) (n : pystr) :
  lookup_col df n = None <-> n ∉ columns df.
Proof.
  unfold lookup_col, columns. induction (cols df) as [|[k c] cs IH]; cbn.
  - split; [intros _; apply not_elem_of_nil | reflexivity].
  - case_bool_decide as E; cbn in *.
    + subst. split; [discriminate | intros H; exfalso; apply H; left].
    + rewrite IH, not_elem_of_cons. split; [intros; split; auto | tauto].
Qed.

(** With unique labels, a column of the frame is the one found under its label. *)
Lemma lookup_col_elem (df : DataFrame) (n : pystr) (c : list cell) :
  NoDup (columns df) -> (n, c) ∈ cols df -> lookup_col df n = Some c.
Proof.
  unfold lookup_col, columns. induction (cols df) as [|[k d] cs IH]; cbn.
  - intros _ H. inversion H.
  - intros Hnd Hin. apply NoDup_cons in Hnd as [Hk Hnd].
    case_bool_decide as E; cbn in *.
    + subst k. apply elem_of_cons in Hin as [[= ->]|Hin]; [reflexivity|].
      exfalso. apply Hk. apply list_elem_of_fmap. exists (n, c). auto.
    + apply elem_of_cons in Hin as [[= -> ->]|Hin]; [congruence | auto].
Qed.

(** Selecting labels that are all present gives a frame of exactly these
    columns, in the order asked for, over the same rows. *)
Lemma getitem_list_present (df : DataFrame) (names : list pystr) :
  (forall n, n ∈ names -> n ∈ columns df) ->
  exists sel,
    getitem_list df names = Ok sel /\
    columns sel = names /\ nrows sel = nrows df /\
    Forall2 (fun n c => fst c = n /\ lookup_col df n = Some (snd c)) names (cols sel).
Proof.
  intros Hall. unfold getitem_list.
  assert (filter (fun n => lookup_col df n = None) names = []) as ->.
  { destruct (filter _ names) as [|k ks] eqn:E; [reflexivity|]. exfalso.
    assert (k ∈ filter (fun n => lookup_col df n = None) names) as Hk
      by (rewrite E; left).
    apply list_elem_of_filter in Hk as [Hnone Hk].
    apply lookup_col_None in Hnone. auto. }
  eexists. split; [reflexivity|]. cbn.
  assert (Forall2 (fun n c => fst c = n /\ lookup_col df n = Some (snd c)) names
            (flat_map (fun n => match lookup_col df n with
                                | Some c => [(n, c)] | None => [] end) names)) as F.
  { induction names as [|n ns IH]; cbn; [constructor|].
    destruct (lookup_col df n) as [c|] eqn:E.
    - cbn. constructor; [auto|]. apply IH. intros k Hk. apply Hall. right. exact Hk.
    - exfalso. apply lookup_col_None in E. apply E, Hall. left. }
  split; [|split; [reflexivity | exact F]].
  unfold columns. cbn. clear Hall.
  induction F as [|n c ns cs [Hc _] _ IH]; cbn; [reflexivity|].
  rewrite Hc, IH. reflexivity.
Qed.

(** Column 1 of a matrix of [n] rows of two probabilities: [n] probabilities. *)
Lemma getitem_all_1_probabilities (n : nat) (a : ndarray) :
  probability_matrix n a ->
  exists probs,
    getitem_all_1 a = Ok probs /\ List.length probs = n /\ Forall in_unit probs.
Proof.
  intros (Hs & Hn & Hrows). unfold getitem_all_1. rewrite Hs. cbn.
  subst n. induction Hrows as [|r rs [Hr Hin] _ IH]; cbn.
  - exists []. repeat split. constructor.
  - destruct r as [|x0 [|x1 [|]]]; try discriminate. cbn.
    destruct IH as (probs & -> & Hlen & Hall). cbn.
    exists (x1 :: probs). split; [reflexivity|]. cbn. split; [lia|].
    constructor; [|exact Hall].
    apply Forall_cons in Hin as [_ Hin]. apply Forall_cons in Hin as [Hin _]. exact Hin.
Qed.

(** ** The augmented table *)

(** Assigning a column under a new label, with one value per row, appends it. *)
Lemma setitem_fresh (df : DataFrame) (key : pystr) (values : list pyfloat) :
  key ∉ columns df -> List.length values = nrows df ->
  setitem df key values
    = Ok {| nrows := nrows df; cols := cols df ++ [(key, map CFloat values)] |}.
Proof.
  intros Hkey Hlen. unfold setitem, set_column. rewrite Hlen.
  rewrite Nat.eqb_refl.
  assert ((nrows df =? 0)%nat && negb (nrows df =? 0)%nat = false) as ->
    by (destruct (nrows df =? 0)%nat; reflexivity).
  rewrite bool_decide_eq_false_2 by exact Hkey. reflexivity.
Qed.

(** A row of a frame with one more column at the end. *)
Lemma row_app (n : nat) (cs : list (pystr * list cell)) (key : pystr)
    (vals : list cell) (i : nat) :
  row {| nrows := n; cols := cs ++ [(key, vals)] |} i
    = row {| nrows := n; cols := cs |} i ++ [nth i vals NaN].
Proof. unfold row. cbn. rewrite map_app. reflexivity. Qed.

(** The batch probabilities when the classifier answers the selected
    columns with one row of two probabilities per row. *)
Lemma predict_batch_answer (model : Classifier) (batch : DataFrame) :
  (forall n, n ∈ feature_names -> n ∈ columns batch) ->
  (forall sel, getitem_list batch feature_names = Ok sel ->
     exists a, predict_proba model sel = Ok a /\ probability_matrix (nrows batch) a) ->
  exists probs,
    predict_batch model feature_names batch = Ok probs /\
    List.length probs = nrows batch /\ Forall in_unit probs.
Proof.
  intros Hfeat Hanswer.
  destruct (getitem_list_present batch feature_names Hfeat) as (sel & Hsel & _).
  destruct (Hanswer sel Hsel) as (a & Ha & Hmat).
  destruct (getitem_all_1_probabilities _ a Hmat) as (probs & Hp & Hlen & Hall).
  exists probs. unfold predict_batch. rewrite Hsel. cbn [obind]. rewrite Ha.
  cbn [obind]. auto.
Qed.

(** The batch probabilities of a classifier that keeps to the contract. *)
Lemma predict_batch_contract (model : Classifier) (batch : DataFrame) :
  meets_contract model ->
  (forall n, n ∈ feature_names -> n ∈ columns batch) ->
  exists probs,
    predict_batch model feature_names batch = Ok probs /\
    List.length probs = nrows batch /\ Forall in_unit probs.
Proof.
  intros Hmodel Hfeat. apply predict_batch_answer; [exact Hfeat|].
  intros sel Hsel.
  destruct (getitem_list_present batch feature_names Hfeat)
    as (sel' & Hsel' & Hcols & Hrows & _).
  assert (sel' = sel) by congruence. subst sel'.
  destruct (Hmodel sel Hcols) as (a & Ha & Hmat). rewrite Hrows in Hmat. eauto.
Qed.

(** C3, amended: when the upload has all six required columns and no column
    labelled [Pred_Prob], and the classifier answers the six selected
    columns of this upload with one row of two probabilities per row, the
    augmented table has the upload's rows in their order, its columns in
    their order, and one more column [Pred_Prob] at the end whose values
    lie in [0,1]. *)
Theorem C3_augmented_table (model : Classifier) (batch : DataFrame)
    (Hfeat : forall n, n ∈ feature_names -> n ∈ columns batch)
    (Hfresh : Pred_Prob ∉ columns batch)
    (Hanswer : forall sel, getitem_list batch feature_names = Ok sel ->
       exists a, predict_proba model sel = Ok a /\ probability_matrix (nrows batch) a) :
  exists probs out,
    augment model feature_names batch = Ok out /\
    nrows out = nrows batch /\
    cols out = cols batch ++ [(Pred_Prob, map CFloat probs)] /\
    List.length probs = nrows batch /\
    Forall in_unit probs /\
    forall i p, probs !! i = Some p -> row out i = row batch i ++ [CFloat p].
Proof.
  destruct (predict_batch_answer model batch Hfeat Hanswer)
    as (probs & Hp & Hlen & Hall).
  exists probs. eexists. unfold augment. rewrite Hp. cbn [obind].
  rewrite (setitem_fresh batch Pred_Prob probs Hfresh Hlen).
  repeat split; try reflexivity; try assumption.
  intros i p Hi. rewrite row_app. destruct batch as [n cs]. cbn.
  do 2 f_equal. apply nth_lookup_Some with (d := NaN).
  rewrite list_lookup_fmap, Hi. reflexivity.
Qed.

(** The sample classifier keeps to the contract. *)
Lemma constant_classifier_contract : meets_contract Sample.constant_classifier.
Proof.
  intros X _. eexists. split; [reflexivity|]. unfold probability_matrix. cbn.
  split; [reflexivity|]. split; [apply repeat_length|].
  apply Forall_forall. intros r Hr. apply list_elem_of_In, repeat_spec in Hr.
  subst r. split; [reflexivity|]. repeat constructor.
Qed.

(** C3 on a one-row upload of the six features and the stand-in, which
    answers one row as asked. *)
Lemma C3_augmented_table_witness :
  exists probs out,
    augment DummyModel feature_names Sample.table_one_row = Ok out /\
    nrows out = 1%nat /\
    cols out = cols Sample.table_one_row ++ [(Pred_Prob, map CFloat probs)] /\
    List.length probs = 1%nat /\
    Forall in_unit probs /\
    forall i p, probs !! i = Some p ->
      row out i = row Sample.table_one_row i ++ [CFloat p].
Proof.
  apply (C3_augmented_table DummyModel Sample.table_one_row).
  - features_present.
  - by_evaluation.
  - intros sel _. eexists. split; [reflexivity|].
    split; [reflexivity|]. split; [reflexivity|]. repeat constructor.
Defined.

(** C3 as stated fails in two ways.  With the stand-in classifier a
    two-row upload of the six features gets no augmented table: the
    assignment of one probability to two rows raises.  And with a
    classifier that keeps to the contract, an upload that already has a
    [Pred_Prob] column keeps its seven columns: that column is overwritten
    where it stands, and none is appended. *)
Lemma C3_counterexample :
  (forall n, n ∈ feature_names -> n ∈ columns Sample.table_two_rows) /\
  augment DummyModel feature_names Sample.table_two_rows = Raise ValueError /\
  (forall n, n ∈ feature_names -> n ∈ columns Sample.table_with_Pred_Prob) /\
  exists out,
    augment Sample.constant_classifier feature_names Sample.table_with_Pred_Prob = Ok out /\
    columns out = columns Sample.table_with_Pred_Prob /\
    List.length (cols out) = 7%nat /\
    lookup_col Sample.table_with_Pred_Prob Pred_Prob
      = Some [CStr (lit "n/a"); CStr (lit "n/a")] /\
    lookup_col out Pred_Prob = Some [CFloat f0_45; CFloat f0_45].
Proof.
  split; [|split; [|split]].
  - features_present.
  - vm_compute. reflexivity.
  - features_present.
  - eexists. split; [vm_compute; reflexivity|]. repeat split.
Qed.

(** ** What the classifier is asked *)

(** Selection looks at nothing but the number of rows and the columns under
    the labels asked for. *)
Lemma getitem_list_ext (b1 b2 : DataFrame) (names : list pystr) :
  nrows b1 = nrows b2 ->
  (forall n, n ∈ names -> lookup_col b1 n = lookup_col b2 n) ->
  getitem_list b1 names = getitem_list b2 names.
Proof.
  intros Hrows Hsame. unfold getitem_list.
  assert (filter (fun n => lookup_col b1 n = None) names
          = filter (fun n => lookup_col b2 n = None) names) as ->.
  { clear Hrows. induction names as [|n ns IH]; [reflexivity|].
    rewrite !filter_cons, (Hsame n) by left.
    rewrite IH; [reflexivity|]. intros k Hk. apply Hsame. right. exact Hk. }
  assert (flat_map (fun n => match lookup_col b1 n with
                             | Some c => [(n, c)] | None => [] end) names
          = flat_map (fun n => match lookup_col b2 n with
                               | Some c => [(n, c)] | None => [] end) names) as ->.
  { clear Hrows. induction names as [|n ns IH]; [reflexivity|]. cbn.
    rewrite (Hsame n) by left.
    rewrite IH; [reflexivity|]. intros k Hk. apply Hsame. right. exact Hk. }
  rewrite Hrows. reflexivity.
Qed.

(** C7: two uploads with the same rows under the six required labels get
    the same probabilities, whatever other columns they have and in whatever
    order their columns stand: the classifier is given the six required
    columns, selected by label in the fixed order, and nothing else. *)
Theorem C7_only_features_matter (model : Classifier) (b1 b2 : DataFrame)
    (Hnd1 : NoDup (columns b1)) (Hnd2 : NoDup (columns b2))
    (Hrows : nrows b1 = nrows b2)
    (Hsame : forall n, n ∈ feature_names ->
               exists c, (n, c) ∈ cols b1 /\ (n, c) ∈ cols b2) :
  exists sel,
    getitem_list b1 feature_names = Ok sel /\
    getitem_list b2 feature_names = Ok sel /\
    columns sel = feature_names /\
    predict_batch model feature_names b1 = predict_batch model feature_names b2.
Proof.
  assert (forall n, n ∈ feature_names -> lookup_col b1 n = lookup_col b2 n) as Hl.
  { intros n Hn. destruct (Hsame n Hn) as (c & H1 & H2).
    rewrite (lookup_col_elem b1 n c Hnd1 H1), (lookup_col_elem b2 n c Hnd2 H2).
    reflexivity. }
  assert (forall n, n ∈ feature_names -> n ∈ columns b1) as Hin.
  { intros n Hn. destruct (Hsame n Hn) as (c & H1 & _).
    apply list_elem_of_fmap. exists (n, c). auto. }
  destruct (getitem_list_present b1 feature_names Hin) as (sel & Hsel & Hcols & _).
  pose proof (getitem_list_ext b1 b2 feature_names Hrows Hl) as E.
  exists sel. split; [exact Hsel|]. split; [congruence|]. split; [exact Hcols|].
  unfold predict_batch. rewrite E. reflexivity.
Qed.

(** C7 on an upload and the same upload with its columns reversed and one
    more column in front. *)
Lemma C7_only_features_matter_witness :
  exists sel,
    getitem_list Sample.table_two_rows feature_names = Ok sel /\
    getitem_list Sample.table_reordered feature_names = Ok sel /\
    columns sel = feature_names /\
    predict_batch DummyModel feature_names Sample.table_two_rows
      = predict_batch DummyModel feature_names Sample.table_reordered.
Proof.
  apply (C7_only_features_matter DummyModel Sample.table_two_rows Sample.table_reordered).
  - by_evaluation.
  - by_evaluation.
  - reflexivity.
  - intros n Hn.
    repeat (apply elem_of_cons in Hn as [->|Hn];
            [eexists; split; apply list_elem_of_In; cbn; tauto|]).
    inversion Hn.
Defined.

(** ** Single-case prediction *)

(** C10: the stand-in ignores what it is asked: for every frame, of
    whatever number of rows, [predict_proba] gives the one-row matrix
    [[0.2, 0.45]]. *)
Theorem C10_stand_in_ignores_input (X : DataFrame) :
  exists a,
    predict_proba DummyModel X = Ok a /\
    rows a = [[f0_2; f0_45]] /\ shape1 a = 2%nat /\ List.length (rows a) = 1%nat.
Proof. eexists. repeat split. Qed.

(** C4: with the artifact absent, [load_model] shows an error and gives
    the stand-in; a prediction for Length=0.8, RMT=0.3, Pre_Hb=115,
    Pre_Alb=40, Post_WBC=5.5, BMI=23.0 against it gives exactly 0.45, the
    medium banner and the yellow gauge bar. *)
Theorem C4_stand_in_scenario :
  load_model (Raise FileNotFoundError) = ([error msg_model_missing], Ok DummyModel) /\
  predict_single DummyModel (input_df default_sidebar) = Ok f0_45 /\
  banner_tier f0_45 = medium /\
  g_bar_color (plot_gauge f0_45) = yellow /\
  tab1 DummyModel (input_df default_sidebar) true
    = ([static 125;
        dataframe_transposed (input_df default_sidebar);
        plotly_chart (Gauge (plot_gauge f0_45));
        static 139;
        warning (msg_medium_risk f0_45)], Ok tt).
Proof. repeat split. Qed.

(** ** The float literals *)

(** The constants of the [Float] module are the binary64 values of the
    decimal literals of the script. *)
Lemma literals_binary64 :
  Prim2SF 0.0%float = f0_0 /\ Prim2SF 0.2%float = f0_2 /\ Prim2SF 0.3%float = f0_3 /\
  Prim2SF 0.45%float = f0_45 /\ Prim2SF 0.7%float = f0_7 /\ Prim2SF 1.0%float = f1_0 /\
  Prim2SF 100%float = f100 /\
  Prim2SF 0.8%float = length default_sidebar /\
  Prim2SF 5.5%float = post_wbc default_sidebar /\
  Prim2SF 23.0%float = bmi default_sidebar.
Proof. vm_compute. repeat split. Qed.

(** ** Assignment to a column *)

(** Replacing the column [key] leaves the lookup of any other label as it was. *)
Lemma find_replaced_other (cs : list (pystr * list cell)) (key k : pystr)
    (vals : list cell) :
  k <> key ->
  find (fun c => bool_decide (fst c = k))
       (map (fun c => if bool_decide (fst c = key) then (key, vals) else c) cs)
    = find (fun c => bool_decide (fst c = k)) cs.
Proof.
  intros Hk. induction cs as [|[k0 c0] cs IH]; [reflexivity|]. cbn.
  destruct (decide (k0 = key)) as [->|Hk0].
  - rewrite (bool_decide_eq_true_2 (key = key)) by reflexivity. cbn.
    rewrite (bool_decide_eq_false_2 (key = k)) by congruence. exact IH.
  - rewrite (bool_decide_eq_false_2 (k0 = key)) by exact Hk0. cbn.
    rewrite IH. reflexivity.
Qed.

(** Replacing the column [key] puts the new cells under [key]. *)
Lemma find_replaced_key (cs : list (pystr * list cell)) (key : pystr)
    (vals : list cell) :
  key ∈ map fst cs ->
  find (fun c => bool_decide (fst c = key))
       (map (fun c => if bool_decide (fst c = key) then (key, vals) else c) cs)
    = Some (key, vals).
Proof.
  induction cs as [|[k0 c0] cs IH]; cbn; [intros H; inversion H|].
  intros Hin. destruct (decide (k0 = key)) as [->|Hk0].
  - rewrite (bool_decide_eq_true_2 (key = key)) by reflexivity. cbn.
    rewrite (bool_decide_eq_true_2 (key = key)) by reflexivity. reflexivity.
  - rewrite (bool_decide_eq_false_2 (k0 = key)) by exact Hk0. cbn.
    rewrite (bool_decide_eq_false_2 (k0 = key)) by exact Hk0.
    apply IH. apply elem_of_cons in Hin as [Hin|Hin]; [congruence | exact Hin].
Qed.

(** Appending a column leaves the lookup of the labels before it as it was. *)
Lemma find_appended (cs : list (pystr * list cell)) (key k : pystr) (vals : list cell) :
  find (fun c => bool_decide (fst c = k)) (cs ++ [(key, vals)])
    = match find (fun c => bool_decide (fst c = k)) cs with
      | Some c => Some c
      | None => if bool_decide (key = k) then Some (key, vals) else None
      end.
Proof.
  induction cs as [|[k0 c0] cs IH]; cbn; [reflexivity|].
  destruct (bool_decide (k0 = k)); [reflexivity | exact IH].
Qed.

(** Looking a label up after [set_column]. *)
Lemma lookup_set_column (n : nat) (cs : list (pystr * list cell)) (key k : pystr)
    (vals : list cell) :
  lookup_col {| nrows := n; cols := set_column key vals cs |} k
    = if bool_decide (k = key) then Some vals
      else lookup_col {| nrows := n; cols := cs |} k.
Proof.
  unfold lookup_col, set_column. cbn [cols].
  case_bool_decide as Hin; case_bool_decide as Hk.
  - subst k. rewrite (find_replaced_key cs key vals Hin). reflexivity.
  - rewrite (find_replaced_other cs key k vals Hk). reflexivity.
  - subst k. rewrite find_appended.
    assert (find (fun c => bool_decide (fst c = key)) cs = None) as ->.
    { clear -Hin. induction cs as [|[k0 c0] cs IH]; [reflexivity|]. cbn in *.
      apply not_elem_of_cons in Hin as [Hk0 Hin].
      rewrite (bool_decide_eq_false_2 (k0 = key)) by congruence. auto. }
    rewrite bool_decide_eq_true_2 by reflexivity. reflexivity.
  - rewrite find_appended.
    destruct (find (fun c => bool_decide (fst c = k)) cs); [reflexivity|].
    rewrite bool_decide_eq_false_2 by congruence. reflexivity.
Qed.

(** [set_column] keeps columns of the frame's height. *)
Lemma set_column_lengths (n : nat) (cs : list (pystr * list cell)) (key : pystr)
    (vals : list cell) :
  List.length vals = n ->
  Forall (fun c => List.length (snd c) = n) cs ->
  Forall (fun c => List.length (snd c) = n) (set_column key vals cs).
Proof.
  intros Hv Hcs. unfold set_column. case_bool_decide.
  - apply Forall_fmap. eapply Forall_impl; [exact Hcs|].
    intros [k c] Hc. unfold compose. cbn in *.
    case_bool_decide; cbn; [exact Hv | exact Hc].
  - apply Forall_app. split; [exact Hcs|]. repeat constructor. exact Hv.
Qed.

(** No required label is missing exactly when the upload has them all. *)
Lemma missing_columns_empty (required : list pystr) (batch : DataFrame) :
  missing_columns required batch = ∅ <-> forall n, n ∈ required -> n ∈ columns batch.
Proof.
  split.
  - intros E n Hn. destruct (decide (n ∈ columns batch)) as [|Hno]; [assumption|].
    assert (n ∈ missing_columns required batch) as Hin
      by (apply elem_of_missing_columns; auto).
    rewrite E in Hin. set_solver.
  - intros Hall. apply set_eq. intros n. rewrite elem_of_missing_columns.
    split; [intros [Hn Hno]; exfalso; auto | set_solver].
Qed.

(** ** The export *)

(** The labels after an assignment to a column: the label is added at the
    end unless the frame has it already. *)
Lemma setitem_columns (df out : DataFrame) (key : pystr) (values : list pyfloat) :
  setitem df key values = Ok out ->
  columns out = if bool_decide (key ∈ columns df) then columns df
                else columns df ++ [key].
Proof.
  assert (forall cs vals,
    map fst (set_column key vals cs)
      = if bool_decide (key ∈ map fst cs) then map fst cs else map fst cs ++ [key]) as Hset.
  { intros cs vals. unfold set_column. case_bool_decide as E.
    - clear E. induction cs as [|[k c] cs IH]; [reflexivity|]. cbn.
      rewrite IH. case_bool_decide; cbn in *; congruence.
    - rewrite map_app. reflexivity. }
  unfold setitem, columns.
  destruct ((nrows df =? 0)%nat && negb (List.length values =? 0)%nat).
  - intros [= <-]. cbn. rewrite Hset, map_map. cbn. reflexivity.
  - destruct (List.length values =? nrows df)%nat; [|discriminate].
    intros [= <-]. cbn. apply Hset.
Qed.

(** One step of a run: unfold the sequencing, keep the library calls folded. *)
Ltac ui_step :=
  cbn -[Pred_Prob getitem encode_utf8_sig to_csv augment setitem predict_batch
        too_many_cells].

(** After an assignment the column is there, with the values assigned. *)
Lemma setitem_lookup (df out : DataFrame) (key : pystr) (values : list pyfloat) :
  setitem df key values = Ok out ->
  lookup_col out key = Some (map CFloat values).
Proof.
  unfold setitem.
  destruct ((nrows df =? 0)%nat && negb (List.length values =? 0)%nat).
  - intros [= <-]. rewrite lookup_set_column.
    rewrite bool_decide_eq_true_2 by reflexivity. reflexivity.
  - destruct (List.length values =? nrows df)%nat; [|discriminate].
    intros [= <-]. rewrite lookup_set_column.
    rewrite bool_decide_eq_true_2 by reflexivity. reflexivity.
Qed.

(** A selection that succeeds has found every label asked for. *)
Lemma getitem_list_ok_present (df sel : DataFrame) (names : list pystr) :
  getitem_list df names = Ok sel -> forall n, n ∈ names -> n ∈ columns df.
Proof.
  unfold getitem_list. intros H n Hn.
  destruct (filter (fun k => lookup_col df k = None) names) as [|k ks] eqn:E;
    [|discriminate H].
  destruct (decide (n ∈ columns df)) as [|Hno]; [assumption|]. exfalso.
  apply lookup_col_None in Hno.
  exact (filter_nil_not_elem_of _ _ _ E Hno Hn).
Qed.

(** A batch that got its [Pred_Prob] column had passed the validation. *)
Lemma augment_passes_validation (model : Classifier) (batch out : DataFrame) :
  augment model feature_names batch = Ok out ->
  missing_columns feature_names batch = ∅.
Proof.
  unfold augment, predict_batch. intros H. apply missing_columns_empty.
  destruct (getitem_list batch feature_names) as [sel|e] eqn:Es; [|discriminate H].
  exact (getitem_list_ok_present _ _ _ Es).
Qed.

Section Download.

Variable set_iter : gset pystr -> list pystr.
Variable cell_text : cell -> pystr.
Variable writerow : list pystr -> pystr.


(** The run of a batch report once the [Pred_Prob] column is assigned: the
    export may fail to encode, and the styled table may be too large to
    show. *)
Lemma batch_report_run (model : Classifier) (names : list pystr)
    (batch out : DataFrame) (probs : list pyfloat) :
  predict_batch model names batch = Ok probs ->
  setitem batch Pred_Prob probs = Ok out ->
  batch_report cell_text writerow model names batch
    = match encode_utf8_sig (to_csv cell_text writerow out) with
      | Raise e => (shown_first out probs, Raise e)
      | Ok data =>
          if too_many_cells out
          then (shown_first out probs
                  ++ [download_button data "CSD_Prediction_Results.csv" "text/csv"],
                Raise StreamlitAPIException)
          else (shown_first out probs
                  ++ [download_button data "CSD_Prediction_Results.csv" "text/csv";
                      dataframe_gradient out [Pred_Prob]],
                Ok out)
      end.
Proof.
  intros Hp Hs. unfold batch_report, augment. rewrite Hp. cbn [obind]. rewrite Hs.
  ui_step. unfold getitem. rewrite (setitem_lookup _ _ _ _ Hs). ui_step.
  destruct (encode_utf8_sig (to_csv cell_text writerow out)) as [data|e]; ui_step;
    [|reflexivity].
  unfold dataframe_styled. destruct (too_many_cells out); reflexivity.
Qed.

(** The run of a validated batch, likewise. *)
Lemma run_batch_run (model : Classifier) (batch out : DataFrame) (probs : list pyfloat) :
  predict_batch model feature_names batch = Ok probs ->
  setitem batch Pred_Prob probs = Ok out ->
  run_batch set_iter cell_text writerow model feature_names batch
    = match encode_utf8_sig (to_csv cell_text writerow out) with
      | Raise e => (shown_first out probs, Raise e)
      | Ok data =>
          if too_many_cells out
          then (shown_first out probs
                  ++ [download_button data "CSD_Prediction_Results.csv" "text/csv"],
                Raise StreamlitAPIException)
          else (shown_first out probs
                  ++ [download_button data "CSD_Prediction_Results.csv" "text/csv";
                      dataframe_gradient out [Pred_Prob]],
                Ok (Some out))
      end.
Proof.
  intros Hp Hs. unfold run_batch.
  rewrite bool_decide_eq_false_2.
  - rewrite (batch_report_run model feature_names batch out probs Hp Hs).
    destruct (encode_utf8_sig (to_csv cell_text writerow out)) as [data|e];
      [|reflexivity].
    destruct (too_many_cells out); reflexivity.
  - intros Hne. apply Hne. apply (augment_passes_validation model batch out).
    unfold augment. rewrite Hp. exact Hs.
Qed.

(** Every row of a frame has one cell per column. *)
Lemma row_length (df : DataFrame) (i : nat) :
  List.length (row df i) = List.length (columns df).
Proof. unfold row, columns. rewrite !length_map. reflexivity. Qed.

(** C9, amended: when the augmented table is made from an upload that has
    no column labelled [Pred_Prob], its CSV text starts with the record of
    the upload's labels followed by [Pred_Prob], and has one record per
    row with as many fields as there are labels: no index field.  Unless
    that text holds a code point that UTF-8 cannot encode, the page offers
    exactly one download, and its bytes are EF BB BF followed by the UTF-8
    encoding of the text. *)
Theorem C9_export (model : Classifier) (batch out : DataFrame)
    (Haug : augment model feature_names batch = Ok out)
    (Hfresh : Pred_Prob ∉ columns batch) :
  columns out = columns batch ++ [Pred_Prob] /\
  to_csv cell_text writerow out
    = writerow (columns batch ++ [Pred_Prob])
      ++ concat (map (fun i => writerow (map cell_text (row out i)))
                     (seq 0 (nrows out))) /\
  (forall i, List.length (map cell_text (row out i))
             = S (List.length (columns batch))) /\
  match encode_utf8 (to_csv cell_text writerow out) with
  | Ok body =>
      filter (fun e => is_download e = true)
             (events (run_batch set_iter cell_text writerow model feature_names batch))
        = [download_button ([Byte.xef; Byte.xbb; Byte.xbf] ++ body)
                           "CSD_Prediction_Results.csv" "text/csv"]
  | Raise e =>
      filter (fun e => is_download e = true)
             (events (run_batch set_iter cell_text writerow model feature_names batch))
        = [] /\
      result (run_batch set_iter cell_text writerow model feature_names batch) = Raise e
  end.
Proof.
  pose proof Haug as Haug'. unfold augment in Haug'.
  destruct (predict_batch model feature_names batch) as [probs|e] eqn:Hp;
    [|discriminate Haug']. cbn [obind] in Haug'.
  assert (columns out = columns batch ++ [Pred_Prob]) as Hcols.
  { rewrite (setitem_columns _ _ _ _ Haug').
    rewrite bool_decide_eq_false_2 by exact Hfresh. reflexivity. }
  split; [exact Hcols|]. split; [|split].
  - unfold to_csv. rewrite Hcols. reflexivity.
  - intros i. rewrite length_map, row_length, Hcols, length_app. cbn. lia.
  - rewrite (run_batch_run model batch out probs Hp Haug').
    unfold encode_utf8_sig.
    destruct (encode_utf8 (to_csv cell_text writerow out)) as [body|e]; cbn [obind].
    + destruct (too_many_cells out); reflexivity.
    + split; reflexivity.
Qed.

End Download.

(** C9 on a two-row upload of the six features. *)
Lemma C9_export_witness :
  exists out,
    augment Sample.constant_classifier feature_names Sample.table_two_rows = Ok out /\
    columns out = columns Sample.table_two_rows ++ [Pred_Prob] /\
    to_csv Sample.plain_cell_text Sample.plain_writerow out
      = Sample.plain_writerow (columns Sample.table_two_rows ++ [Pred_Prob])
        ++ concat (map (fun i => Sample.plain_writerow
                                   (map Sample.plain_cell_text (row out i)))
                       (seq 0 (nrows out))) /\
    (forall i, List.length (map Sample.plain_cell_text (row out i))
               = S (List.length (columns Sample.table_two_rows))) /\
    match encode_utf8 (to_csv Sample.plain_cell_text Sample.plain_writerow out) with
    | Ok body =>
        filter (fun e => is_download e = true)
               (events (run_batch elements Sample.plain_cell_text Sample.plain_writerow
                          Sample.constant_classifier feature_names Sample.table_two_rows))
          = [download_button ([Byte.xef; Byte.xbb; Byte.xbf] ++ body)
                             "CSD_Prediction_Results.csv" "text/csv"]
    | Raise e =>
        filter (fun e => is_download e = true)
               (events (run_batch elements Sample.plain_cell_text Sample.plain_writerow
                          Sample.constant_classifier feature_names Sample.table_two_rows))
          = [] /\
        result (run_batch elements Sample.plain_cell_text Sample.plain_writerow
                  Sample.constant_classifier feature_names Sample.table_two_rows)
          = Raise e
    end.
Proof.
  eexists. split; [vm_compute; reflexivity|].
  apply (C9_export elements Sample.plain_cell_text Sample.plain_writerow
           Sample.constant_classifier Sample.table_two_rows).
  - vm_compute. reflexivity.
  - by_evaluation.
Defined.

(** C9 as stated fails on an upload that already has a [Pred_Prob] column:
    the batch is processed and the download is offered, but the exported
    text has the upload's seven labels and no eighth, and under [Pred_Prob]
    it holds the probabilities instead of the uploaded cells. *)
Lemma C9_counterexample :
  exists data,
    encode_utf8_sig (to_csv Sample.plain_cell_text Sample.plain_writerow
                            Sample.table_overwritten) = Ok data /\
    run_batch elements Sample.plain_cell_text Sample.plain_writerow
              Sample.constant_classifier feature_names Sample.table_with_Pred_Prob
      = (shown_first Sample.table_overwritten [f0_45; f0_45]
           ++ [download_button data "CSD_Prediction_Results.csv" "text/csv";
               dataframe_gradient Sample.table_overwritten [Pred_Prob]],
         Ok (Some Sample.table_overwritten)) /\
    columns Sample.table_overwritten = columns Sample.table_with_Pred_Prob /\
    List.length (columns Sample.table_overwritten) = 7%nat /\
    lookup_col Sample.table_with_Pred_Prob Pred_Prob
      = Some [CStr (lit "n/a"); CStr (lit "n/a")] /\
    lookup_col Sample.table_overwritten Pred_Prob = Some [CFloat f0_45; CFloat f0_45].
Proof.
  eexists. split; [vm_compute; reflexivity|].
  split; [vm_compute; reflexivity|]. repeat split.
Qed.

(** * Further properties *)

(** ** Probabilities outside [0,1] *)

(** X1: a NaN probability takes the last branch of both if-chains: the
    banner is the high-risk error and the gauge bar is red.  A negative
    probability is low and green, one above 1 is high and red. *)
Theorem X1_tiers_outside_unit (p : pyfloat) :
  (is_nan p = true -> banner p = emit (error (msg_high_risk p)) /\ gauge_color p = red) /\
  (ltb p f0_0 = true -> banner p = emit (success (msg_low_risk p)) /\ gauge_color p = green) /\
  (ltb f1_0 p = true -> banner p = emit (error (msg_high_risk p)) /\ gauge_color p = red).
Proof.
  split; [|split].
  - destruct p; try discriminate. intros _. split; reflexivity.
  - intros H. assert (ltb p f0_3 = true) as E
      by (apply (ltb_trans p f0_0 f0_3); [exact H | reflexivity]).
    unfold banner, gauge_color. rewrite E. split; reflexivity.
  - intros H.
    assert (ltb p f0_7 = false) as E7.
    { destruct (ltb p f0_7) eqn:E; [|reflexivity].
      assert (ltb f1_0 f0_7 = true) as C by (apply (ltb_trans f1_0 p f0_7); assumption).
      discriminate C. }
    assert (ltb p f0_3 = false) as E3.
    { destruct (ltb p f0_3) eqn:E; [|reflexivity].
      assert (ltb f1_0 f0_3 = true) as C by (apply (ltb_trans f1_0 p f0_3); assumption).
      discriminate C. }
    unfold banner, gauge_color. rewrite E3, E7. split; reflexivity.
Qed.

(** X1 at NaN, at -0.45 and at 100. *)
Lemma X1_tiers_outside_unit_witness :
  (banner S754_nan = emit (error (msg_high_risk S754_nan)) /\ gauge_color S754_nan = red) /\
  (banner (SFopp f0_45) = emit (success (msg_low_risk (SFopp f0_45))) /\
   gauge_color (SFopp f0_45) = green) /\
  (banner f100 = emit (error (msg_high_risk f100)) /\ gauge_color f100 = red).
Proof.
  split; [|split].
  - apply (proj1 (X1_tiers_outside_unit S754_nan)). reflexivity.
  - apply (proj1 (proj2 (X1_tiers_outside_unit (SFopp f0_45)))). reflexivity.
  - apply (proj2 (proj2 (X1_tiers_outside_unit f100))). reflexivity.
Defined.

(** ** Loading the classifier *)

(** X2: [load_model] falls back to the stand-in for [FileNotFoundError]
    only.  A loaded classifier is returned without any element; any other
    exception of [joblib.load] leaves [load_model] as it is, and the script
    stops after its first element. *)
Theorem X2_load_model_cases
    (read_csv : list Byte.byte -> outcome DataFrame)
    (set_iter : gset pystr -> list pystr)
    (cell_text : cell -> pystr) (writerow : list pystr -> pystr)
    (joblib_load : outcome Classifier) (i : inputs) :
  match joblib_load with
  | Ok m => load_model joblib_load = ([], Ok m)
  | Raise FileNotFoundError =>
      load_model joblib_load = ([error msg_model_missing], Ok DummyModel)
  | Raise e =>
      load_model joblib_load = ([], Raise e) /\
      script read_csv set_iter cell_text writerow joblib_load i = ([static 18], Raise e)
  end.
Proof. destruct joblib_load as [m|[]]; cbn; auto. Qed.

(** ** The stand-in classifier *)

(** X3: against the stand-in, every single-case prediction gives 0.45
    and the medium banner, whatever the sidebar holds. *)
Theorem X3_stand_in_single_case (sb : sidebar) :
  predict_single DummyModel (input_df sb) = Ok f0_45 /\
  tab1 DummyModel (input_df sb) true
    = ([static 125;
        dataframe_transposed (input_df sb);
        plotly_chart (Gauge (plot_gauge f0_45));
        static 139;
        warning (msg_medium_risk f0_45)], Ok tt).
Proof. split; reflexivity. Qed.


(** What the stand-in gives for a batch that has the required labels. *)
Lemma predict_batch_stand_in (batch : DataFrame) :
  (forall n, n ∈ feature_names -> n ∈ columns batch) ->
  predict_batch DummyModel feature_names batch = Ok [f0_45].
Proof.
  intros Hfeat.
  destruct (getitem_list_present batch feature_names Hfeat) as (sel & Hsel & _).
  unfold predict_batch. rewrite Hsel. reflexivity.
Qed.

Section StandInBatch.

Variable set_iter : gset pystr -> list pystr.
Variable cell_text : cell -> pystr.
Variable writerow : list pystr -> pystr.

(** X4: against the stand-in, a valid upload of two or more rows is not
    processed: the one probability does not fit the rows, the assignment
    raises [ValueError], and the run stops before it has shown anything of
    the batch. *)
Theorem X4_stand_in_batch_fails (batch : DataFrame)
    (Hfeat : forall n, n ∈ feature_names -> n ∈ columns batch)
    (Hrows : (2 <= nrows batch)%nat) :
  augment DummyModel feature_names batch = Raise ValueError /\
  run_batch set_iter cell_text writerow DummyModel feature_names batch
    = ([], Raise ValueError).
Proof.
  assert (augment DummyModel feature_names batch = Raise ValueError) as Ha.
  { unfold augment. rewrite (predict_batch_stand_in batch Hfeat). cbn [obind].
    unfold setitem. cbn [List.length map].
    destruct (nrows batch) as [|[|n]]; [lia | lia | reflexivity]. }
  split; [exact Ha|]. unfold run_batch.
  rewrite bool_decide_eq_false_2.
  - unfold batch_report. rewrite Ha. reflexivity.
  - intros Hne. apply Hne. apply missing_columns_empty. exact Hfeat.
Qed.

End StandInBatch.

(** X4 on a two-row upload of the six features. *)
Lemma X4_stand_in_batch_fails_witness :
  augment DummyModel feature_names Sample.table_two_rows = Raise ValueError /\
  run_batch elements Sample.plain_cell_text Sample.plain_writerow
            DummyModel feature_names Sample.table_two_rows
    = ([], Raise ValueError).
Proof.
  apply (X4_stand_in_batch_fails elements Sample.plain_cell_text Sample.plain_writerow
           Sample.table_two_rows).
  - features_present.
  - cbn. lia.
Defined.

(** X5: an assignment that succeeds keeps the frame well formed: labels
    stay unique and every column has one cell per row.  So the augmented
    table of a well-formed upload is well formed, whatever the classifier
    answered. *)
Theorem X5_augment_well_formed (model : Classifier) (batch out : DataFrame)
    (Hwf : wf_frame batch)
    (Hout : augment model feature_names batch = Ok out) :
  wf_frame out.
Proof.
  unfold augment in Hout.
  destruct (predict_batch model feature_names batch) as [probs|e]; [|discriminate Hout].
  cbn [obind] in Hout. destruct Hwf as [Hnd Hlen]. split.
  - rewrite (setitem_columns _ _ _ _ Hout). case_bool_decide as Hin; [exact Hnd|].
    apply NoDup_app. split; [exact Hnd|]. split; [|apply NoDup_singleton].
    intros k Hk Hk'. apply list_elem_of_singleton in Hk'. subst k. auto.
  - unfold setitem in Hout.
    destruct ((nrows batch =? 0)%nat && negb (List.length probs =? 0)%nat).
    + injection Hout as <-. cbn. apply set_column_lengths.
      * apply length_map.
      * apply Forall_fmap, Forall_forall. intros c _. cbn. apply repeat_length.
    + destruct (List.length probs =? nrows batch)%nat eqn:E; [|discriminate Hout].
      injection Hout as <-. cbn. apply Nat.eqb_eq in E. apply set_column_lengths.
      * rewrite length_map. exact E.
      * exact Hlen.
Qed.

(** X5 on an upload that already has a [Pred_Prob] column. *)
Lemma X5_augment_well_formed_witness :
  exists out,
    augment Sample.constant_classifier feature_names Sample.table_with_Pred_Prob = Ok out /\
    wf_frame out.
Proof.
  eexists. split; [vm_compute; reflexivity|].
  apply (X5_augment_well_formed Sample.constant_classifier Sample.table_with_Pred_Prob).
  - split; [by_evaluation | repeat constructor].
  - vm_compute. reflexivity.
Defined.

(** X6: when the upload already has a column labelled [Pred_Prob], a
    classifier that keeps to the contract leaves the labels and the rows of
    every other column as they were; the cells of [Pred_Prob] are replaced
    by the probabilities, where the column stands. *)
Theorem X6_existing_column_overwritten (model : Classifier) (batch : DataFrame)
    (Hmodel : meets_contract model)
    (Hfeat : forall n, n ∈ feature_names -> n ∈ columns batch)
    (Hhas : Pred_Prob ∈ columns batch) :
  exists probs out,
    augment model feature_names batch = Ok out /\
    columns out = columns batch /\
    nrows out = nrows batch /\
    lookup_col out Pred_Prob = Some (map CFloat probs) /\
    forall n, n <> Pred_Prob -> lookup_col out n = lookup_col batch n.
Proof.
  destruct (predict_batch_contract model batch Hmodel Hfeat)
    as (probs & Hp & Hlen & _).
  assert (setitem batch Pred_Prob probs
          = Ok {| nrows := nrows batch;
                  cols := set_column Pred_Prob (map CFloat probs) (cols batch) |}) as Hs.
  { unfold setitem. rewrite Hlen, Nat.eqb_refl.
    destruct (nrows batch =? 0)%nat; reflexivity. }
  exists probs. eexists. unfold augment. rewrite Hp. cbn [obind].
  split; [exact Hs|]. split; [|split; [reflexivity|split]].
  - rewrite (setitem_columns _ _ _ _ Hs).
    rewrite bool_decide_eq_true_2 by exact Hhas. reflexivity.
  - rewrite lookup_set_column. rewrite bool_decide_eq_true_2 by reflexivity. reflexivity.
  - intros n Hn. rewrite lookup_set_column.
    rewrite bool_decide_eq_false_2 by exact Hn. destruct batch; reflexivity.
Qed.

(** X6 on an upload that has a [Pred_Prob] column between its features. *)
Lemma X6_existing_column_overwritten_witness :
  exists probs out,
    augment Sample.constant_classifier feature_names Sample.table_with_Pred_Prob = Ok out /\
    columns out = columns Sample.table_with_Pred_Prob /\
    nrows out = 2%nat /\
    lookup_col out Pred_Prob = Some (map CFloat probs) /\
    forall n, n <> Pred_Prob ->
      lookup_col out n = lookup_col Sample.table_with_Pred_Prob n.
Proof.
  apply (X6_existing_column_overwritten Sample.constant_classifier
           Sample.table_with_Pred_Prob constant_classifier_contract).
  - features_present.
  - by_evaluation.
Defined.

(** ** Validation and the missing-columns message *)

Section Message.

Variable set_iter : gset pystr -> list pystr.
Variable cell_text : cell -> pystr.
Variable writerow : list pystr -> pystr.
Hypothesis set_iter_perm : forall s, set_iter s ≡ₚ elements s.

(** X7: when exactly one required label is absent, the error text is
    that label and nothing else, in whatever order sets are iterated. *)
Theorem X7_single_missing_label (model : Classifier) (batch : DataFrame) (n : pystr)
    (Hn : n ∈ feature_names)
    (Hmiss : n ∉ columns batch)
    (Hothers : forall k, k ∈ feature_names -> k <> n -> k ∈ columns batch) :
  run_batch set_iter cell_text writerow model feature_names batch
    = ([error (msg_missing_columns n)], Ok None).
Proof.
  assert (missing_columns feature_names batch = {[n]}) as E.
  { apply set_eq. intros k. rewrite elem_of_missing_columns, elem_of_singleton.
    split.
    - intros [Hk Hno]. destruct (decide (k = n)); [assumption|].
      exfalso. apply Hno, Hothers; assumption.
    - intros ->. auto. }
  unfold run_batch. rewrite E.
  rewrite bool_decide_eq_true_2 by apply non_empty_singleton_L.
  assert (set_iter {[n]} = [n]) as ->.
  { apply Permutation_singleton_r. rewrite set_iter_perm, elements_singleton.
    reflexivity. }
  reflexivity.
Qed.

End Message.

(** X7 on an upload that lacks only [BMI]. *)
Lemma X7_single_missing_label_witness :
  run_batch elements Sample.plain_cell_text Sample.plain_writerow DummyModel
            feature_names Sample.table_without_BMI
    = ([error (msg_missing_columns (lit "BMI"))], Ok None).
Proof.
  apply (X7_single_missing_label elements Sample.plain_cell_text Sample.plain_writerow
           (fun s => reflexivity _) DummyModel Sample.table_without_BMI (lit "BMI")).
  - repeat constructor.
  - by_evaluation.
  - intros k Hk Hne. apply (bool_decide_unpack _).
    repeat (apply elem_of_cons in Hk as [->|Hk];
            [first [vm_compute; exact I | exfalso; apply Hne; reflexivity]|]).
    inversion Hk.
Defined.

(** ** Exceptions *)

(** [omap] raises what its function raises on some member of the list. *)
Lemma omap_raise {A B} (f : A -> outcome B) (l : list A) (e : exn) :
  omap f l = Raise e -> exists x, x ∈ l /\ f x = Raise e.
Proof.
  induction l as [|x l IH]; cbn; [discriminate|].
  destruct (f x) as [y|e'] eqn:Ex; cbn.
  - destruct (omap f l) as [ys|e'']; cbn; [discriminate|].
    intros [= ->]. destruct IH as (x' & Hx' & Hf); [reflexivity|].
    exists x'. split; [right; exact Hx' | exact Hf].
  - intros [= ->]. exists x. split; [left | exact Ex].
Qed.

(** One code point is encoded exactly when it is a scalar value, into one
    to four bytes; otherwise the encoder raises [UnicodeEncodeError]. *)
Lemma utf8_encode_cp_cases (c : codepoint) :
  if is_scalar c
  then exists bs, utf8_encode_cp c = Ok bs /\
                  (1 <= List.length bs <= 4)%nat
  else utf8_encode_cp c = Raise (UnicodeEncodeError c).
Proof.
  unfold is_scalar, utf8_encode_cp, is_surrogate.
  destruct (N.ltb_spec c 0x80); [|destruct (N.ltb_spec c 0x800);
    [|destruct (N.ltb_spec c 0x10000); [|destruct (N.ltb_spec c 0x110000)]]].
  - assert ((c <? 0x110000)%N = true) as -> by (apply N.ltb_lt; lia).
    assert ((0xD800 <=? c)%N = false) as -> by (apply N.leb_gt; lia).
    cbn. eexists. split; [reflexivity | cbn; lia].
  - assert ((c <? 0x110000)%N = true) as -> by (apply N.ltb_lt; lia).
    assert ((0xD800 <=? c)%N = false) as -> by (apply N.leb_gt; lia).
    cbn. eexists. split; [reflexivity | cbn; lia].
  - assert ((c <? 0x110000)%N = true) as -> by (apply N.ltb_lt; lia).
    cbn [andb]. destruct ((0xD800 <=? c)%N && (c <=? 0xDFFF)%N); cbn.
    + reflexivity.
    + eexists. split; [reflexivity | cbn; lia].
  - assert ((0xD800 <=? c)%N && (c <=? 0xDFFF)%N = false) as ->.
    { apply andb_false_iff. right. apply N.leb_gt. lia. }
    cbn. eexists. split; [reflexivity | cbn; lia].
  - cbn. reflexivity.
Qed.

(** [encode('utf-8-sig')] can only fail with [UnicodeEncodeError]. *)
Lemma encode_utf8_sig_raise (s : pystr) (e : exn) :
  encode_utf8_sig s = Raise e ->
  exists c, c ∈ s /\ is_scalar c = false /\ e = UnicodeEncodeError c.
Proof.
  unfold encode_utf8_sig, encode_utf8.
  destruct (omap utf8_encode_cp s) as [chunks|e'] eqn:E; cbn; [discriminate|].
  intros [= ->]. apply omap_raise in E as (c & Hc & Hraise).
  exists c. split; [exact Hc|].
  pose proof (utf8_encode_cp_cases c) as H. destruct (is_scalar c).
  - destruct H as (bs & Hbs & _). congruence.
  - split; [reflexivity | congruence].
Qed.

(** X8: the two column lookups of the batch path cannot fail.  Once the
    validation has found no required label missing, the selection of the
    six required columns succeeds and gives exactly these columns; and once
    the assignment to [Pred_Prob] has succeeded, the lookup of that column
    for the statistics succeeds and gives the values assigned. *)
Theorem X8_batch_lookups_cannot_fail (batch : DataFrame)
    (Hvalid : missing_columns feature_names batch = ∅) :
  (exists sel,
     getitem_list batch feature_names = Ok sel /\ columns sel = feature_names) /\
  forall probs out,
    setitem batch Pred_Prob probs = Ok out ->
    getitem out Pred_Prob = Ok (map CFloat probs).
Proof.
  split.
  - destruct (getitem_list_present batch feature_names) as (sel & Hsel & Hcols & _).
    + apply missing_columns_empty, Hvalid.
    + exists sel. split; assumption.
  - intros probs out Hs. unfold getitem.
    rewrite (setitem_lookup _ _ _ _ Hs). reflexivity.
Qed.

(** X8 on a two-row upload of the six features. *)
Lemma X8_batch_lookups_cannot_fail_witness :
  (exists sel,
     getitem_list Sample.table_two_rows feature_names = Ok sel /\
     columns sel = feature_names) /\
  forall probs out,
    setitem Sample.table_two_rows Pred_Prob probs = Ok out ->
    getitem out Pred_Prob = Ok (map CFloat probs).
Proof.
  apply (X8_batch_lookups_cannot_fail Sample.table_two_rows).
  by_evaluation.
Defined.

(** ** The encoding of the export *)

(** X9: [encode('utf-8-sig')] succeeds exactly on texts of scalar values.
    It then gives the byte-order mark followed by one to four bytes for
    each code point; otherwise it raises [UnicodeEncodeError] for a code
    point of the text that is no scalar value. *)
Theorem X9_encode_utf8_sig (s : pystr) :
  if forallb is_scalar s
  then exists body,
         encode_utf8_sig s = Ok (BOM ++ body) /\
         (List.length s <= List.length body <= 4 * List.length s)%nat
  else exists c,
         c ∈ s /\ is_scalar c = false /\
         encode_utf8_sig s = Raise (UnicodeEncodeError c).
Proof.
  destruct (forallb is_scalar s) eqn:E.
  - assert (exists chunks, omap utf8_encode_cp s = Ok chunks /\
              (List.length s <= List.length (concat chunks) <= 4 * List.length s)%nat)
      as (chunks & Hc & Hlen).
    { induction s as [|c s IH]; cbn in *.
      - exists []. split; [reflexivity | cbn; lia].
      - apply andb_true_iff in E as [Ec Es].
        pose proof (utf8_encode_cp_cases c) as H. rewrite Ec in H.
        destruct H as (bs & -> & Hbs). cbn.
        destruct (IH Es) as (chunks & -> & Hlen). cbn.
        exists (bs :: chunks). split; [reflexivity|].
        cbn. rewrite length_app. lia. }
    exists (concat chunks). unfold encode_utf8_sig, encode_utf8. rewrite Hc. cbn.
    split; [reflexivity | exact Hlen].
  - destruct (encode_utf8_sig s) as [data|e] eqn:Ee.
    + exfalso. unfold encode_utf8_sig, encode_utf8 in Ee.
      destruct (omap utf8_encode_cp s) as [chunks|] eqn:Ec; [|discriminate Ee].
      clear Ee. revert chunks Ec E. induction s as [|c s IH]; cbn; [discriminate|].
      intros chunks Ec E. pose proof (utf8_encode_cp_cases c) as H.
      destruct (is_scalar c); cbn in E.
      * destruct (utf8_encode_cp c); [|discriminate Ec]. cbn in Ec.
        destruct (omap utf8_encode_cp s) eqn:Es; [|discriminate Ec]. eauto.
      * rewrite H in Ec. discriminate Ec.
    + apply encode_utf8_sig_raise in Ee as (c & Hc & Hs & ->). eauto.
Qed.

(** X10: a text of ASCII characters is exported as the byte-order mark
    followed by one byte per character, the character's code. *)
Theorem X10_encode_ascii (s : pystr)
    (Hascii : Forall (fun c => (c < 128)%N) s) :
  encode_utf8_sig s = Ok (BOM ++ map byte_of_N s).
Proof.
  assert (omap utf8_encode_cp s = Ok (map (fun c => [byte_of_N c]) s)) as E.
  { induction Hascii as [|c s Hc _ IH]; [reflexivity|]. cbn.
    unfold utf8_encode_cp at 1. apply N.ltb_lt in Hc. rewrite Hc. cbn.
    rewrite IH. reflexivity. }
  unfold encode_utf8_sig, encode_utf8. rewrite E. cbn [obind]. do 2 f_equal.
  clear. induction s as [|c s IH]; [reflexivity|]. cbn. rewrite IH. reflexivity.
Qed.

(** X10 on the label of the new column. *)
Lemma X10_encode_ascii_witness :
  encode_utf8_sig Pred_Prob = Ok (BOM ++ map byte_of_N Pred_Prob).
Proof.
  apply (X10_encode_ascii Pred_Prob). repeat constructor.
Defined.

(** ** Answers of the wrong shape *)

(** X11: when the classifier's answer has a single column, both adapters
    raise [IndexError]: tab 1 stops after the overview of the inputs, with
    no gauge and no banner, and the batch gets no [Pred_Prob] column. *)
Theorem X11_one_column_answer (model : Classifier) (df batch : DataFrame)
    (Hsingle : forall X, exists a,
       predict_proba model X = Ok a /\ shape1 a = 1%nat /\
       Forall (fun r => List.length r = 1%nat) (rows a))
    (Hfeat : forall n, n ∈ feature_names -> n ∈ columns batch) :
  tab1 model df true = ([static 125; dataframe_transposed df], Raise IndexError) /\
  augment model feature_names batch = Raise IndexError.
Proof.
  split.
  - unfold tab1, predict_single.
    destruct (Hsingle df) as (a & Ha & _ & Hrows). rewrite Ha. cbn [obind].
    unfold getitem_0_1. destruct (rows a) as [|r rs]; [reflexivity|].
    apply Forall_cons in Hrows as [Hr _].
    destruct r as [|x [|y r]]; try discriminate Hr. reflexivity.
  - destruct (getitem_list_present batch feature_names Hfeat) as (sel & Hsel & _).
    unfold augment, predict_batch. rewrite Hsel. cbn [obind].
    destruct (Hsingle sel) as (a & Ha & Hs & _). rewrite Ha. cbn [obind].
    unfold getitem_all_1. rewrite Hs. reflexivity.
Qed.

(** X11 on a classifier that answers with the positive class only. *)
Lemma X11_one_column_answer_witness :
  tab1 Sample.one_column_classifier (input_df default_sidebar) true
    = ([static 125; dataframe_transposed (input_df default_sidebar)], Raise IndexError) /\
  augment Sample.one_column_classifier feature_names Sample.table_two_rows
    = Raise IndexError.
Proof.
  apply (X11_one_column_answer Sample.one_column_classifier
           (input_df default_sidebar) Sample.table_two_rows).
  - intros X. eexists. split; [reflexivity|]. split; [reflexivity|]. cbn.
    apply Forall_forall. intros r Hr. apply list_elem_of_In, repeat_spec in Hr.
    subst r. reflexivity.
  - features_present.
Defined.

(** ** A failed prediction and the rest of the page *)

Section Page.

Variable read_csv : list Byte.byte -> outcome DataFrame.
Variable set_iter : gset pystr -> list pystr.
Variable cell_text : cell -> pystr.
Variable writerow : list pystr -> pystr.

(** X12: when the single-case prediction raises, the run of the page
    ends there: the sidebar, the titles and the overview of the inputs are
    shown, but tab 2 is not reached, an uploaded file is not read, and the
    closing texts are missing. *)
Theorem X12_failed_prediction_stops_page (model : Classifier) (i : inputs) (e : exn)
    (Hclick : predict_btn i = true)
    (Hfail : predict_single model (input_df (values i)) = Raise e) :
  page read_csv set_iter cell_text writerow model i
    = ([static 89; static 90; static 91; static 93; static 97; static 99;
        static 114; static 115; static 125;
        dataframe_transposed (input_df (values i))], Raise e).
Proof.
  unfold page, tab1. rewrite Hclick, Hfail. reflexivity.
Qed.

End Page.

(** X12 on a classifier that fails, with a file uploaded. *)
Lemma X12_failed_prediction_stops_page_witness :
  let i := {| values := default_sidebar; predict_btn := true; uploaded := Some [] |} in
  page (fun _ => Ok Sample.table_two_rows) elements Sample.plain_cell_text
       Sample.plain_writerow Sample.failing_classifier i
    = ([static 89; static 90; static 91; static 93; static 97; static 99;
        static 114; static 115; static 125;
        dataframe_transposed (input_df default_sidebar)],
       Raise (OtherError "LightGBMError")).
Proof.
  intros i.
  apply (X12_failed_prediction_stops_page (fun _ => Ok Sample.table_two_rows) elements
           Sample.plain_cell_text Sample.plain_writerow Sample.failing_classifier i).
  - reflexivity.
  - reflexivity.
Defined.

(** ** The sidebar's integers *)

(** X13: the two integer inputs pass through [astype("float32")]
    unchanged: for every integer within the bounds of the two number
    inputs (20 to 200), the float32 cell is a valid binary32 number whose
    value is that integer. *)
Theorem X13_integer_inputs_exact (z : Z) (Hz : 20 <= z <= 200) :
  represents (f32_of_int z) z = true /\ valid_binary 24 128 (f32_of_int z) = true.
Proof.
  assert (forallb (fun z => represents (f32_of_int z) z
                            && valid_binary 24 128 (f32_of_int z))
                  (seqZ 20 181) = true) as H by (vm_compute; reflexivity).
  rewrite forallb_forall in H. apply andb_true_iff. apply H.
  apply list_elem_of_In, elem_of_seqZ. lia.
Qed.

(** X13 at the initial haemoglobin value. *)
Lemma X13_integer_inputs_exact_witness :
  represents (f32_of_int 115) 115 = true /\ valid_binary 24 128 (f32_of_int 115) = true.
Proof. apply (X13_integer_inputs_exact 115). lia. Defined.

(** ** A batch that is processed to its end *)

Section Report.

Variable set_iter : gset pystr -> list pystr.
Variable cell_text : cell -> pystr.
Variable writerow : list pystr -> pystr.


End Report.


(** ** Row alignment *)

(** X15: the probability of row [i] is the second entry of the [i]-th row
    of the classifier's answer: the batch adapter neither reorders nor
    drops rows. *)
Theorem X15_probabilities_row_aligned (model : Classifier) (batch sel : DataFrame)
    (a : ndarray) (probs : list pyfloat)
    (Hsel : getitem_list batch feature_names = Ok sel)
    (Ha : predict_proba model sel = Ok a)
    (Hp : predict_batch model feature_names batch = Ok probs) :
  List.length probs = List.length (rows a) /\
  forall i r, rows a !! i = Some r -> probs !! i = r !! 1%nat.
Proof.
  unfold predict_batch in Hp. rewrite Hsel in Hp. cbn [obind] in Hp.
  rewrite Ha in Hp. cbn [obind] in Hp. unfold getitem_all_1 in Hp.
  destruct (shape1 a <=? 1)%nat; [discriminate Hp|].
  revert probs Hp. induction (rows a) as [|r0 rs IH]; cbn; intros probs Hp.
  - injection Hp as <-. split; [reflexivity|]. intros i r Hi. discriminate Hi.
  - destruct (r0 !! 1%nat) as [x|] eqn:Ex; [|discriminate Hp]. cbn in Hp.
    destruct (omap _ rs) as [ps|] eqn:Eps; [|discriminate Hp]. cbn in Hp.
    injection Hp as <-. destruct (IH ps eq_refl) as [Hlen Hall].
    split; [cbn; lia|]. intros [|i] r Hi; cbn in *.
    + injection Hi as <-. symmetry. exact Ex.
    + apply Hall, Hi.
Qed.

(** X15 on the sample classifier and a two-row upload. *)
Lemma X15_probabilities_row_aligned_witness :
  List.length [f0_45; f0_45] = List.length (repeat [f0_2; f0_45] 2) /\
  forall i r, repeat [f0_2; f0_45] 2 !! i = Some r -> [f0_45; f0_45] !! i = r !! 1%nat.
Proof.
  apply (X15_probabilities_row_aligned Sample.constant_classifier Sample.table_two_rows
           {| nrows := 2; cols := Sample.feature_cols |}
           {| shape1 := 2; rows := repeat [f0_2; f0_45] 2 |} [f0_45; f0_45]).
  - vm_compute. reflexivity.
  - reflexivity.
  - vm_compute. reflexivity.
Defined.

(** ** The stand-in and an upload without rows *)

(** X16: against the stand-in, an upload that has the six required
    columns and no row comes out with one row: the assignment of the one
    probability gives the frame its index, every uploaded column holds the
    missing value in that row, and [Pred_Prob] holds 0.45. *)
Theorem X16_stand_in_empty_upload (batch : DataFrame)
    (Hfeat : forall n, n ∈ feature_names -> n ∈ columns batch)
    (Hfresh : Pred_Prob ∉ columns batch)
    (Hrows : nrows batch = 0%nat) :
  augment DummyModel feature_names batch
    = Ok {| nrows := 1;
            cols := map (fun c => (fst c, [NaN])) (cols batch)
                    ++ [(Pred_Prob, [CFloat f0_45])] |}.
Proof.
  unfold augment. rewrite (predict_batch_stand_in batch Hfeat). cbn [obind].
  unfold setitem. rewrite Hrows. cbn. unfold set_column.
  rewrite bool_decide_eq_false_2; [reflexivity|].
  rewrite map_map. cbn. exact Hfresh.
Qed.

(** X16 on an upload of the six labels and no row. *)
Lemma X16_stand_in_empty_upload_witness :
  augment DummyModel feature_names Sample.table_no_rows
    = Ok {| nrows := 1;
            cols := map (fun c => (fst c, [NaN])) (cols Sample.table_no_rows)
                    ++ [(Pred_Prob, [CFloat f0_45])] |}.
Proof.
  apply (X16_stand_in_empty_upload Sample.table_no_rows).
  - features_present.
  - by_evaluation.
  - reflexivity.
Defined.
